(** * Memorandum validator: a shallow embedding of [validator.py]

    The development follows the layout of the Python module: the string
    and regular-expression primitives the checks rely on ([str.strip],
    [re.match], [re.search]), the binary64 arithmetic of the margin
    check, the [Severity] / [ValidationIssue] data model, the
    [MemorandumValidator] object with one function per method, and
    finally the properties of the rule engine.

    Modelling conventions.
    - A Python [str] is a [string]; each [ascii] stands for the code
      point of the same number (the range 0..255).
    - A Python [int] is a [Z]; [int(...)] of a digit string is the
      unbounded decimal value (the interpreter's optional limit on the
      length of a converted digit string is not modelled).
    - A Python [float] is an IEEE-754 binary64 value of [SpecFloat].
    - [self] is a record threaded through the methods; a method that
      appends to [self.issues] returns the updated record. *)

From Stdlib Require Import ZArith List Bool Ascii String Lia.
From Stdlib Require Import DecimalString SpecFloat Permutation.
Import ListNotations.

Local Open Scope string_scope.
Local Open Scope Z_scope.

(** ** Python string primitives *)

Module Text.

Definition code (c : ascii) : nat := nat_of_ascii c.

(** [str.isspace] on one character, which is also the class [\s] of
    the [re] module for [str] patterns. *)
Definition is_space (c : ascii) : bool :=
  let n := code c in
  ((9 <=? n) && (n <=? 13))%nat || ((28 <=? n) && (n <=? 32))%nat
  || (n =? 133)%nat || (n =? 160)%nat.

(** The class [\d]: the decimal digits among the code points modelled. *)
Definition is_digit (c : ascii) : bool :=
  let n := code c in ((48 <=? n) && (n <=? 57))%nat.

Definition is_upper (c : ascii) : bool :=
  let n := code c in ((65 <=? n) && (n <=? 90))%nat.

Definition is_lower (c : ascii) : bool :=
  let n := code c in ((97 <=? n) && (n <=? 122))%nat.

Definition is_alpha (c : ascii) : bool := is_upper c || is_lower c.

Definition lower (c : ascii) : ascii :=
  if is_upper c then ascii_of_nat (code c + 32) else c.

Definition upper (c : ascii) : ascii :=
  if is_lower c then ascii_of_nat (code c - 32) else c.

Definition newline : ascii := ascii_of_nat 10.

Fixpoint lstrip (s : string) : string :=
  match s with
  | EmptyString => EmptyString
  | String c s' => if is_space c then lstrip s' else s
  end.

Fixpoint rstrip (s : string) : string :=
  match s with
  | EmptyString => EmptyString
  | String c s' =>
      match rstrip s' with
      | EmptyString => if is_space c then EmptyString else String c EmptyString
      | r => String c r
      end
  end.

(** [s.strip()] *)
Definition strip (s : string) : string := rstrip (lstrip s).

(** [s.startswith(p)] *)
Definition startswith (s p : string) : bool := String.prefix p s.

(** [s.endswith(p)]: [p] is [s] or one of its proper suffixes. *)
Fixpoint endswith (s p : string) : bool :=
  if String.eqb s p then true
  else match s with
       | EmptyString => false
       | String _ s' => endswith s' p
       end.

(** Truth value of a string: [if text] *)
Definition nonempty (s : string) : bool :=
  match s with EmptyString => false | _ => true end.

Fixpoint filter (p : ascii -> bool) (s : string) : string :=
  match s with
  | EmptyString => EmptyString
  | String c s' => if p c then String c (filter p s') else filter p s'
  end.

Fixpoint map (f : ascii -> ascii) (s : string) : string :=
  match s with
  | EmptyString => EmptyString
  | String c s' => String (f c) (map f s')
  end.

Fixpoint forallb (p : ascii -> bool) (s : string) : bool :=
  match s with
  | EmptyString => true
  | String c s' => p c && forallb p s'
  end.

(** The longest prefix of [s] whose characters satisfy [p]. *)
Fixpoint take_while (p : ascii -> bool) (s : string) : string :=
  match s with
  | EmptyString => EmptyString
  | String c s' => if p c then String c (take_while p s') else EmptyString
  end.

Fixpoint drop_while (p : ascii -> bool) (s : string) : string :=
  match s with
  | EmptyString => EmptyString
  | String c s' => if p c then drop_while p s' else s
  end.

(** A text without white space at its end. *)
Definition no_trailing_space (t : string) : Prop :=
  forall a b, t = a ++ b -> forallb is_space b = true -> b = "".

Definition digit_value (c : ascii) : Z := Z.of_nat (code c) - 48.

Fixpoint int_acc (acc : Z) (s : string) : Z :=
  match s with
  | EmptyString => acc
  | String c s' => int_acc (10 * acc + digit_value c) s'
  end.

(** [int(s)] for a string of decimal digits. *)
Definition int_of_digits (s : string) : Z := int_acc 0 s.

(** [str(n)], as inserted by an f-string. *)
Definition str_of_int (n : Z) : string := NilZero.string_of_int (Z.to_int n).

End Text.

(** ** Regular expressions

    The patterns of the validator use literals, the classes [\d], [\s]
    and [.], concatenation, alternation, [?], [+], [*] and bounded
    repetition.  A pattern is a term of [regex]; matching is by
    Brzozowski derivatives, which decides the existence of a match (the
    only thing [re.match] / [re.search] are asked for, apart from the
    one capture group of the body check, see [Validator.body_number]). *)

Module Regex.

Inductive regex : Type :=
| Void : regex
| Eps : regex
| Class : (ascii -> bool) -> regex
| Cat : regex -> regex -> regex
| Alt : regex -> regex -> regex
| Star : regex -> regex.

Definition Plus (r : regex) : regex := Cat r (Star r).
Definition Opt (r : regex) : regex := Alt r Eps.

(** One literal character. *)
Definition Chr (c : ascii) : regex := Class (Ascii.eqb c).

Fixpoint Lit (s : string) : regex :=
  match s with
  | EmptyString => Eps
  | String c s' => Cat (Chr c) (Lit s')
  end.

(** The flag [re.IGNORECASE]: a character matches a class when it or
    one of its case variants does. *)
Fixpoint ignorecase (r : regex) : regex :=
  match r with
  | Void => Void
  | Eps => Eps
  | Class p => Class (fun c => p c || p (Text.lower c) || p (Text.upper c))
  | Cat r1 r2 => Cat (ignorecase r1) (ignorecase r2)
  | Alt r1 r2 => Alt (ignorecase r1) (ignorecase r2)
  | Star r1 => Star (ignorecase r1)
  end.

Fixpoint AltList (rs : list regex) : regex :=
  match rs with
  | [] => Void
  | [r] => r
  | r :: rs' => Alt r (AltList rs')
  end.

Definition Digit : regex := Class Text.is_digit.
Definition Space : regex := Class Text.is_space.
(** [.] without [re.DOTALL]: any character but the newline. *)
Definition Dot : regex := Class (fun c => negb (Ascii.eqb c Text.newline)).

Fixpoint nullable (r : regex) : bool :=
  match r with
  | Void => false
  | Eps => true
  | Class _ => false
  | Cat r1 r2 => nullable r1 && nullable r2
  | Alt r1 r2 => nullable r1 || nullable r2
  | Star _ => true
  end.

Fixpoint deriv (c : ascii) (r : regex) : regex :=
  match r with
  | Void => Void
  | Eps => Void
  | Class p => if p c then Eps else Void
  | Cat r1 r2 =>
      if nullable r1
      then Alt (Cat (deriv c r1) r2) (deriv c r2)
      else Cat (deriv c r1) r2
  | Alt r1 r2 => Alt (deriv c r1) (deriv c r2)
  | Star r1 => Cat (deriv c r1) (Star r1)
  end.

(** The whole of [s] matches [r]. *)
Fixpoint fullmatch (r : regex) (s : string) : bool :=
  match s with
  | EmptyString => nullable r
  | String c s' => fullmatch (deriv c r) s'
  end.

(** [re.match(r, s)]: some prefix of [s] matches [r]. *)
Fixpoint re_match (r : regex) (s : string) : bool :=
  if nullable r then true
  else match s with
       | EmptyString => false
       | String c s' => re_match (deriv c r) s'
       end.

(** [re.search(r, s)]: a match starts at some position of [s]. *)
Fixpoint re_search (r : regex) (s : string) : bool :=
  if re_match r s then true
  else match s with
       | EmptyString => false
       | String _ s' => re_search r s'
       end.

(** The language of a pattern, against which the matcher is checked. *)
Inductive matches : regex -> string -> Prop :=
| m_eps : matches Eps EmptyString
| m_class : forall (p : ascii -> bool) c,
    p c = true -> matches (Class p) (String c EmptyString)
| m_cat : forall r1 r2 s1 s2,
    matches r1 s1 -> matches r2 s2 -> matches (Cat r1 r2) (s1 ++ s2)
| m_alt_l : forall r1 r2 s, matches r1 s -> matches (Alt r1 r2) s
| m_alt_r : forall r1 r2 s, matches r2 s -> matches (Alt r1 r2) s
| m_star_nil : forall r, matches (Star r) EmptyString
| m_star_app : forall r s1 s2,
    matches r s1 -> matches (Star r) s2 -> matches (Star r) (s1 ++ s2).

End Regex.

(** ** Binary64 arithmetic

    The margin check divides an integer length by [914400.0], subtracts
    [1.0], takes the absolute value and compares with [0.1], all in
    Python floats.  [SpecFloat] gives these operations with rounding to
    nearest, ties to even. *)

Module Float64.

Definition prec : Z := 53.
Definition emax : Z := 1024.

Definition float : Type := spec_float.

(** [float(n)] for a Python [int]. *)
Definition of_int (n : Z) : float := binary_normalize prec emax n 0 false.

Definition sub (x y : float) : float := SFsub prec emax x y.
Definition div (x y : float) : float := SFdiv prec emax x y.
Definition abs (x : float) : float := SFabs x.
(** [x > y] *)
Definition gt (x y : float) : bool := SFltb y x.

(** The literal [1.0]. *)
Definition one : float := of_int 1.
(** The literal [0.1]: the binary64 value nearest to one tenth. *)
Definition tenth : float := S754_finite false 7205759403792794 (-56).

Definition two_digits (n : Z) : string :=
  if n <? 10 then "0" ++ Text.str_of_int n else Text.str_of_int n.

(** [f"{x:.2f}"]: the exact value of [x] rounded to two decimals,
    ties to even, with the sign of [x]. *)
Definition format_2f (x : float) : string :=
  match x with
  | S754_zero s => (if s then "-" else "") ++ "0.00"
  | S754_infinity s => (if s then "-" else "") ++ "inf"
  | S754_nan => "nan"
  | S754_finite s m e =>
      let q :=
        if 0 <=? e then Zpos m * 2 ^ e * 100
        else
          let num := Zpos m * 100 in
          let den := 2 ^ (- e) in
          let q0 := num / den in
          let r := num mod den in
          if (den <? 2 * r) || ((den =? 2 * r) && Z.odd q0) then q0 + 1 else q0
      in
      (if s then "-" else "") ++ Text.str_of_int (q / 100) ++ "."
        ++ two_digits (q mod 100)
  end.

End Float64.

(** ** [datetime.strptime(text, '%d %B %Y')]

    The library call is modelled for this one format, in the English
    locale: the text has to match the expression that [_strptime]
    builds for the format, and the parsed fields have to make a date
    that [datetime.date] accepts.  [strptime_ok] is [false] exactly
    when the call raises [ValueError]. *)

Module Strptime.
Import Regex.

Definition month_names : list string :=
  ["january"; "february"; "march"; "april"; "may"; "june"; "july";
   "august"; "september"; "october"; "november"; "december"].

Definition range_class (lo hi : nat) : regex :=
  Class (fun c => (lo <=? Text.code c)%nat && (Text.code c <=? hi)%nat).

(** [(?P<d>3[0-1]|[1-2]\d|0[1-9]|[1-9]| [1-9])] *)
Definition directive_d : regex :=
  AltList
    [ Cat (Chr "3") (range_class 48 49);
      Cat (range_class 49 50) Digit;
      Cat (Chr "0") (range_class 49 57);
      range_class 49 57;
      Cat (Chr " ") (range_class 49 57) ].

(** [(?P<B>january|february|...)] *)
Definition directive_B : regex := AltList (List.map Lit month_names).

(** [(?P<Y>\d\d\d\d)] *)
Definition directive_Y : regex := Cat Digit (Cat Digit (Cat Digit Digit)).

(** The expression for ['%d %B %Y'], compiled with [re.IGNORECASE];
    the blank of the format stands for [\s+]. *)
Definition format_regex : regex :=
  ignorecase
    (Cat directive_d
       (Cat (Plus Space) (Cat directive_B (Cat (Plus Space) directive_Y)))).

Fixpoint index_of (name : string) (names : list string) (i : Z) : Z :=
  match names with
  | [] => 0
  | n :: names' => if String.eqb n name then i else index_of name names' (i + 1)
  end.

(** The day field: the digits before the month name. *)
Definition day_of (text : string) : Z :=
  Text.int_of_digits
    (Text.filter Text.is_digit
       (Text.take_while (fun c => negb (Text.is_alpha c)) text)).

(** The month field, 1 to 12 (0 when the name is unknown). *)
Definition month_of (text : string) : Z :=
  index_of (Text.map Text.lower (Text.filter Text.is_alpha text)) month_names 1.

(** The year field: the digits after the month name. *)
Definition year_of (text : string) : Z :=
  Text.int_of_digits
    (Text.filter Text.is_digit
       (Text.drop_while Text.is_alpha
          (Text.drop_while (fun c => negb (Text.is_alpha c)) text))).

Definition is_leap (y : Z) : bool :=
  (y mod 4 =? 0) && (negb (y mod 100 =? 0) || (y mod 400 =? 0)).

Definition days_in_month (y m : Z) : Z :=
  if m =? 2 then (if is_leap y then 29 else 28)
  else if (m =? 4) || (m =? 6) || (m =? 9) || (m =? 11) then 30
  else 31.

(** [datetime.date(y, m, d)] does not raise. *)
Definition valid_date (y m d : Z) : bool :=
  (1 <=? y) && (y <=? 9999) && (1 <=? m) && (m <=? 12)
  && (1 <=? d) && (d <=? days_in_month y m).

Definition strptime_ok (text : string) : bool :=
  fullmatch format_regex text
  && valid_date (year_of text) (month_of text) (day_of text).

End Strptime.

(** ** The validator *)

Module Validator.
Import Regex.

Inductive Severity : Type := CRITICAL | WARNING | INFO.

Definition Severity_eqb (a b : Severity) : bool :=
  match a, b with
  | CRITICAL, CRITICAL | WARNING, WARNING | INFO, INFO => true
  | _, _ => false
  end.

Record ValidationIssue : Type := mkIssue {
  severity : Severity;
  section : string;
  message : string;
  paragraph_number : option Z
}.

(** *** The [python-docx] objects read by the validator

    A [Length] is an integer number of English Metric Units, 914400 to
    the inch; a margin that the document does not set is [None]. *)

Record DocSection : Type := mkSection {
  top_margin : option Z;
  bottom_margin : option Z;
  left_margin : option Z;
  right_margin : option Z
}.

(** A document: the [text] of each paragraph, in order, and the sections. *)
Record Document : Type := mkDocument {
  doc_paragraphs : list string;
  doc_sections : list DocSection
}.

(** What [Document(file_path)] does: return a document or raise. *)
Inductive Opened : Type :=
| Loaded (d : Document)
| FileNotFoundError
| OtherException (str_e : string).

Definition EMUS_PER_INCH : Z := 914400.

(** [Length.inches] *)
Definition inches (emu : Z) : Float64.float :=
  Float64.div (Float64.of_int emu) (Float64.of_int EMUS_PER_INCH).

(** *** [class MemorandumValidator] *)

Record MemorandumValidator : Type := mkValidator {
  issues : list ValidationIssue;
  document : option Document;
  paragraphs : list string
}.

(** [__init__] *)
Definition init : MemorandumValidator :=
  {| issues := []; document := None; paragraphs := [] |}.

(** [self.issues.append(issue)] *)
Definition append_issue (i : ValidationIssue) (self : MemorandumValidator)
  : MemorandumValidator :=
  {| issues := issues self ++ [i];
     document := document self;
     paragraphs := paragraphs self |}.

(** Several appends in a row. *)
Definition emit (l : list ValidationIssue) (self : MemorandumValidator)
  : MemorandumValidator :=
  {| issues := issues self ++ l;
     document := document self;
     paragraphs := paragraphs self |}.

Definition len (self : MemorandumValidator) : Z :=
  Z.of_nat (List.length (paragraphs self)).

(** [range(start, stop)] *)
Definition py_range (start stop : Z) : list Z :=
  List.map (fun k => start + Z.of_nat k) (seq 0 (Z.to_nat (stop - start))).

(** The paragraphs numbered from [i] on. *)
Fixpoint indexed_from (i : Z) (ps : list string) : list (Z * string) :=
  match ps with
  | [] => []
  | p :: ps' => (i, p) :: indexed_from (i + 1) ps'
  end.

(** What [for i in range(start, stop)] visits when its body reads
    [self.paragraphs[i].text]: the pairs of [i] and that text, for
    [0 <= start] and [stop <= len] (see [Locator.range_paragraphs_index]). *)
Definition range_paragraphs (self : MemorandumValidator) (start stop : Z)
  : list (Z * string) :=
  indexed_from start
    (firstn (Z.to_nat (stop - start)) (skipn (Z.to_nat start) (paragraphs self))).

Fixpoint find_in (pattern : regex) (l : list (Z * string)) : Z :=
  match l with
  | [] => -1
  | (i, text) :: l' =>
      if re_search (ignorecase pattern) text then i else find_in pattern l'
  end.

Definition _find_paragraph_index (self : MemorandumValidator)
    (pattern : regex) (start : Z) : Z :=
  find_in pattern (range_paragraphs self start (len self)).

Definition _get_text_by_index (self : MemorandumValidator) (index : Z) : string :=
  if (0 <=? index) && (index <? len self)
  then Text.strip (nth (Z.to_nat index) (paragraphs self) "")
  else "".

(** **** The patterns *)

Definition full_months : list string :=
  ["January"; "February"; "March"; "April"; "May"; "June"; "July";
   "August"; "September"; "October"; "November"; "December"].

(** [^\d{1,2}\s+(?:January|...|December)\s+\d{4}\s*$], used with
    [re.match].  The final [\s*$] holds exactly when the rest of the
    text is white space ([$] also accepts a last newline, which [\s*]
    takes): the pattern is [date_pattern] matched against the whole
    text. *)
Definition date_pattern : regex :=
  Cat (Cat Digit (Opt Digit))
    (Cat (Plus Space)
       (Cat (AltList (List.map Lit full_months))
          (Cat (Plus Space)
             (Cat (Cat Digit (Cat Digit (Cat Digit Digit))) (Star Space))))).

Definition memorandum_for_pattern : regex := Lit "MEMORANDUM FOR".
Definition from_pattern : regex := Lit "FROM:".
Definition subject_pattern : regex := Lit "SUBJECT:".
Definition signed_pattern : regex := Lit "//SIGNED//".
(** [Attachments?:] *)
Definition attachments_pattern : regex :=
  Cat (Lit "Attachment") (Cat (Opt (Chr "s")) (Chr ":")).

(** [^FROM:\s+.+] and [^SUBJECT:\s+.+], used with [re.match], which
    anchors at the start, so that [^] adds nothing. *)
Definition from_line_pattern : regex :=
  Cat (Lit "FROM:") (Cat (Plus Space) (Plus Dot)).
Definition subject_line_pattern : regex :=
  Cat (Lit "SUBJECT:") (Cat (Plus Space) (Plus Dot)).

(** [^(\d+)\.\s+] *)
Definition paragraph_pattern : regex :=
  Cat (Plus Digit) (Cat (Chr ".") (Plus Space)).

(** [int(match.group(1))]: in a match of [paragraph_pattern] the
    group is followed by a full stop, so it is the whole run of digits
    the text starts with. *)
Definition body_number (text : string) : Z :=
  Text.int_of_digits (Text.take_while Text.is_digit text).

Definition ranks : list string :=
  ["Colonel"; "Lt Col"; "Major"; "Captain"; "Lieutenant"; "General";
   "Brig Gen"; "Maj Gen"; "Lt Gen"; "Col"; "Capt"; "Lt"; "Gen"].

(** [.+,\s*(?:Colonel|...|Gen),\s*(?:USAF|USSF)] *)
Definition signature_pattern : regex :=
  Cat (Plus Dot)
    (Cat (Chr ",")
       (Cat (Star Space)
          (Cat (AltList (List.map Lit ranks))
             (Cat (Chr ",")
                (Cat (Star Space) (Alt (Lit "USAF") (Lit "USSF"))))))).

(** [Tab\s+\d+] *)
Definition tab_pattern : regex :=
  Cat (Lit "Tab") (Cat (Plus Space) (Plus Digit)).

(** **** [_validate_date] *)

(** The loop over the first paragraphs; the result says whether the
    loop set [found] before it ended or left by [break]. *)
Fixpoint date_loop (self : MemorandumValidator) (l : list (Z * string))
  : bool * MemorandumValidator :=
  match l with
  | [] => (false, self)
  | (i, p) :: l' =>
      let text := Text.strip p in
      if fullmatch date_pattern text then
        (true,
         if Strptime.strptime_ok text then self
         else append_issue
                (mkIssue WARNING "Date"
                   ("Date format appears correct but may be invalid: " ++ text)
                   (Some (i + 1))) self)
      else date_loop self l'
  end.

Definition _validate_date (self : MemorandumValidator) : MemorandumValidator :=
  match paragraphs self with
  | [] => append_issue (mkIssue CRITICAL "Date" "Document is empty" None) self
  | _ =>
      let (found, self) :=
        date_loop self (range_paragraphs self 0 (Z.min 5 (len self))) in
      if negb found then
        append_issue
          (mkIssue CRITICAL "Date"
             "Missing or incorrectly formatted date. Expected format: 'DD Month YYYY' (e.g., '12 March 2025')"
             None) self
      else self
  end.

(** **** The header checks *)

Definition _validate_memorandum_for (self : MemorandumValidator)
  : MemorandumValidator :=
  let idx := _find_paragraph_index self memorandum_for_pattern 0 in
  if idx =? -1 then
    append_issue (mkIssue CRITICAL "Header" "Missing 'MEMORANDUM FOR' line" None) self
  else
    let text := _get_text_by_index self idx in
    if negb (Text.startswith text "MEMORANDUM FOR") then
      append_issue
        (mkIssue WARNING "Header"
           "'MEMORANDUM FOR' should be at the start of the line" (Some (idx + 1))) self
    else self.

Definition _validate_from_line (self : MemorandumValidator) : MemorandumValidator :=
  let idx := _find_paragraph_index self from_pattern 0 in
  if idx =? -1 then
    append_issue (mkIssue CRITICAL "Header" "Missing 'FROM:' line" None) self
  else
    let text := _get_text_by_index self idx in
    if negb (re_match from_line_pattern text) then
      append_issue
        (mkIssue WARNING "Header"
           "FROM: line should be followed by sender information" (Some (idx + 1))) self
    else self.

Definition _validate_subject_line (self : MemorandumValidator) : MemorandumValidator :=
  let idx := _find_paragraph_index self subject_pattern 0 in
  if idx =? -1 then
    append_issue (mkIssue CRITICAL "Header" "Missing 'SUBJECT:' line" None) self
  else
    let text := _get_text_by_index self idx in
    if negb (re_match subject_line_pattern text) then
      append_issue
        (mkIssue WARNING "Header"
           "SUBJECT: line should be followed by subject text" (Some (idx + 1))) self
    else self.

(** **** [_validate_body_paragraphs] *)

(** The first loop: [found_paragraphs], in document order. *)
Fixpoint collect_numbered (l : list (Z * string)) : list (Z * Z) :=
  match l with
  | [] => []
  | (i, p) :: l' =>
      let text := Text.strip p in
      if re_match paragraph_pattern text
      then (body_number text, i) :: collect_numbered l'
      else collect_numbered l'
  end.

(** One turn of the second loop, on the pair of [expected] and [self]. *)
Definition numbering_step (st : Z * MemorandumValidator) (found : Z * Z)
  : Z * MemorandumValidator :=
  let (expected, self) := st in
  let (para_num, para_idx) := found in
  (para_num + 1,
   if negb (para_num =? expected) then
     append_issue
       (mkIssue WARNING "Body"
          ("Paragraph numbering issue: Expected " ++ Text.str_of_int expected
           ++ ", found " ++ Text.str_of_int para_num)
          (Some (para_idx + 1))) self
   else self).

(** The rest of the method once [found_paragraphs] is filled. *)
Definition report_numbering (self : MemorandumValidator)
    (found_paragraphs : list (Z * Z)) : MemorandumValidator :=
  match found_paragraphs with
  | [] =>
      append_issue
        (mkIssue CRITICAL "Body"
           "No numbered paragraphs found. Body paragraphs should be numbered (1., 2., 3., etc.)"
           None) self
  | _ =>
      let (_, self) := fold_left numbering_step found_paragraphs (1, self) in
      append_issue
        (mkIssue INFO "Body"
           ("Found " ++ Text.str_of_int (Z.of_nat (List.length found_paragraphs))
            ++ " numbered paragraph(s)")
           None) self
  end.

Definition _validate_body_paragraphs (self : MemorandumValidator)
  : MemorandumValidator :=
  let subject_idx := _find_paragraph_index self subject_pattern 0 in
  if subject_idx =? -1 then self
  else
    let sig_idx := _find_paragraph_index self signed_pattern subject_idx in
    let sig_idx := if sig_idx =? -1 then len self else sig_idx in
    let found_paragraphs :=
      collect_numbered (range_paragraphs self (subject_idx + 1) sig_idx) in
    report_numbering self found_paragraphs.

(** **** [_validate_signature_block] *)

(** The loop that looks for a name line: [name_found] when it ends. *)
Fixpoint name_loop (l : list (Z * string)) : bool :=
  match l with
  | [] => false
  | (_, p) :: l' =>
      if re_search signature_pattern (Text.strip p) then true else name_loop l'
  end.

Definition _validate_signature_block (self : MemorandumValidator)
  : MemorandumValidator :=
  let sig_idx := _find_paragraph_index self signed_pattern 0 in
  if sig_idx =? -1 then
    append_issue
      (mkIssue CRITICAL "Signature" "Missing '//SIGNED//' marker in signature block"
         None) self
  else
    let name_found :=
      name_loop (range_paragraphs self (sig_idx + 1) (Z.min (sig_idx + 5) (len self))) in
    if negb name_found then
      append_issue
        (mkIssue WARNING "Signature"
           "Signature block may be incomplete. Expected format: 'Name, Rank, Branch'"
           (Some (sig_idx + 1))) self
    else self.

(** **** [_validate_attachments] *)

(** The loop that fills [found_tabs]; it leaves by [break] at the first
    text that is neither a tab nor empty. *)
Fixpoint tab_loop (l : list (Z * string)) : list string :=
  match l with
  | [] => []
  | (_, p) :: l' =>
      let text := Text.strip p in
      if re_match tab_pattern text then text :: tab_loop l'
      else if Text.nonempty text && negb (re_match tab_pattern text) then []
      else tab_loop l'
  end.

Definition _validate_attachments (self : MemorandumValidator) : MemorandumValidator :=
  let attach_idx := _find_paragraph_index self attachments_pattern 0 in
  if attach_idx =? -1 then
    append_issue
      (mkIssue INFO "Attachments" "No attachments section found (optional)" None) self
  else
    let found_tabs := tab_loop (range_paragraphs self (attach_idx + 1) (len self)) in
    match found_tabs with
    | [] =>
        append_issue
          (mkIssue WARNING "Attachments" "Attachments section found but no tabs listed"
             (Some (attach_idx + 1))) self
    | _ =>
        append_issue
          (mkIssue INFO "Attachments"
             ("Found " ++ Text.str_of_int (Z.of_nat (List.length found_tabs))
              ++ " attachment tab(s)")
             None) self
    end.

(** **** [_validate_formatting] *)

(** [section.m.inches if section.m else 0]: a margin that is absent
    or zero counts as [0]. *)
Definition margin_inches (m : option Z) : Float64.float :=
  match m with
  | Some emu => if emu =? 0 then Float64.of_int 0 else inches emu
  | None => Float64.of_int 0
  end.

(** [abs(margin - 1.0) > 0.1] *)
Definition off_standard (margin : Float64.float) : bool :=
  Float64.gt (Float64.abs (Float64.sub margin Float64.one)) Float64.tenth.

(** The body of [if sections:], for [section = sections[0]]. *)
Definition check_margins (sec : DocSection) (self : MemorandumValidator)
  : MemorandumValidator :=
  let top := margin_inches (top_margin sec) in
  let bottom := margin_inches (bottom_margin sec) in
  let left := margin_inches (left_margin sec) in
  let right := margin_inches (right_margin sec) in
  let self :=
    if off_standard top then
      append_issue
        (mkIssue INFO "Formatting"
           ("Top margin is " ++ Float64.format_2f top
            ++ " inches (standard is 1.0 inch)") None) self
    else self in
  if off_standard left then
    append_issue
      (mkIssue INFO "Formatting"
         ("Left margin is " ++ Float64.format_2f left
          ++ " inches (standard is 1.0 inch)") None) self
  else self.

(** The result is [None] when the method raises, which it does when
    it reads [self.document.sections] while [self.document] is still
    [None]. *)
Definition _validate_formatting (self : MemorandumValidator)
  : option MemorandumValidator :=
  match paragraphs self with
  | [] => Some self
  | _ =>
      match document self with
      | None => None
      | Some d =>
          match doc_sections d with
          | [] => Some self
          | sec :: _ => Some (check_margins sec self)
          end
      end
  end.

(** **** [validate_file] *)

Definition is_critical (i : ValidationIssue) : bool :=
  Severity_eqb (severity i) CRITICAL.

(** The entry point.  [open_docx] is what [Document(file_path)] does
    for each path; the result is the returned pair together with the
    state in which the call leaves [self]. *)
Definition validate_file (open_docx : string -> Opened)
    (self : MemorandumValidator) (file_path : string)
  : (bool * list ValidationIssue) * MemorandumValidator :=
  let self := {| issues := []; document := document self;
                 paragraphs := paragraphs self |} in
  if negb (Text.endswith file_path ".docx") then
    let self :=
      append_issue (mkIssue CRITICAL "File" "File must be a .docx document" None) self in
    ((false, issues self), self)
  else
    match open_docx file_path with
    | Loaded d =>
        let self := {| issues := issues self; document := Some d;
                       paragraphs := doc_paragraphs d |} in
        let self := _validate_date self in
        let self := _validate_memorandum_for self in
        let self := _validate_from_line self in
        let self := _validate_subject_line self in
        let self := _validate_body_paragraphs self in
        let self := _validate_signature_block self in
        let self := _validate_attachments self in
        match _validate_formatting self with
        | Some self =>
            let critical_issues := List.filter is_critical (issues self) in
            let passed := (List.length critical_issues =? 0)%nat in
            ((passed, issues self), self)
        | None =>
            let self :=
              append_issue
                (mkIssue CRITICAL "File"
                   "Error reading file: 'NoneType' object has no attribute 'sections'"
                   None) self in
            ((false, issues self), self)
        end
    | FileNotFoundError =>
        let self :=
          append_issue
            (mkIssue CRITICAL "File" ("File not found: " ++ file_path) None) self in
        ((false, issues self), self)
    | OtherException str_e =>
        let self :=
          append_issue
            (mkIssue CRITICAL "File" ("Error reading file: " ++ str_e) None) self in
        ((false, issues self), self)
    end.

(** **** [generate_report]

    The report is built as a list of lines and joined with newlines.
    The two marks of the verdict line lie outside the range of [ascii]
    and are given by the bytes of their UTF-8 encoding. *)

(** [c * n] for a one-character string [c]. *)
Fixpoint repeat_char (c : ascii) (n : nat) : string :=
  match n with
  | O => EmptyString
  | S n' => String c (repeat_char c n')
  end.

Definition rule_double : string := repeat_char "=" 70.
Definition rule_single : string := repeat_char "-" 70.

Definition check_mark : string :=
  String (ascii_of_nat 226) (String (ascii_of_nat 156) (String (ascii_of_nat 147) "")).
Definition cross_mark : string :=
  String (ascii_of_nat 226) (String (ascii_of_nat 156) (String (ascii_of_nat 151) "")).

(** [f" (Paragraph {n})" if issue.paragraph_number else ""]: a number
    that is absent or zero gives the empty string. *)
Definition para_info (i : ValidationIssue) : string :=
  match paragraph_number i with
  | Some n => if n =? 0 then "" else " (Paragraph " ++ Text.str_of_int n ++ ")"
  | None => ""
  end.

(** [f"  [{issue.section}]{para_info}: {issue.message}"] *)
Definition issue_line (i : ValidationIssue) : string :=
  "  [" ++ section i ++ "]" ++ para_info i ++ ": " ++ message i.

(** One of the three blocks [if group: ...]. *)
Definition report_block (title : string) (group : list ValidationIssue)
  : list string :=
  match group with
  | [] => []
  | _ => ([title; rule_single] ++ List.map issue_line group ++ [""])%list
  end.

Definition has_severity (sv : Severity) (i : ValidationIssue) : bool :=
  Severity_eqb (severity i) sv.

(** The list [report] when the function returns. *)
Definition report_lines (passed : bool) (issues : list ValidationIssue)
  : list string :=
  let report :=
    [rule_double; "DAF MEMORANDUM VALIDATION REPORT"; rule_double; ""] in
  let report :=
    (report ++ [if passed then (check_mark ++ " VALIDATION PASSED")%string
                else (cross_mark ++ " VALIDATION FAILED")%string])%list in
  let report := (report ++ [""])%list in
  let critical := List.filter (has_severity CRITICAL) issues in
  let warnings := List.filter (has_severity WARNING) issues in
  let info := List.filter (has_severity INFO) issues in
  let report := (report ++ report_block "CRITICAL ISSUES:" critical)%list in
  let report := (report ++ report_block "WARNINGS:" warnings)%list in
  let report := (report ++ report_block "INFORMATION:" info)%list in
  (report ++ [rule_double])%list.

Definition generate_report (passed : bool) (issues : list ValidationIssue) : string :=
  String.concat (String Text.newline "") (report_lines passed issues).

(** **** [create_test_document]

    The paragraphs that the function adds to a new document, a call of
    [add_paragraph] without text adding an empty one. *)

Definition create_test_document (valid : bool) : list string :=
  if valid then
    ["12 March 2025"; ""; "MEMORANDUM FOR RECORD"; ""; "FROM: AFROTC/CC"; "";
     "SUBJECT: Put Subject Here"; ""; "1. This memorandum provides ..."; "";
     "2. For Questions regarding Memo -- please use the T&Q."; "";
     "3. Additional information can be found in the attachments."; "";
     "//SIGNED//"; ""; "Snuff A. Brown, Colonel, USAF"; ""; "Commander"; "";
     "Attachments:"; ""; "Tab 1"; ""; "Tab 2"]
  else
    ["March 12, 2025"; ""; "MEMO FOR RECORD"; ""; "FROM AFROTC/CC"; "";
     "SUBJECT: Testing"; ""; "This is paragraph one but not numbered."; "";
     "This is paragraph two but not numbered."; "";
     "//SIGNED//"; ""; "Snuff Brown"; ""; "Attachments:"].

(** **** Names for the stages of a run, used in the statements *)

(** The issue of a path with the wrong extension. *)
Definition file_issue : ValidationIssue :=
  mkIssue CRITICAL "File" "File must be a .docx document" None.

(** The issue of the handler when [_validate_formatting] raises. *)
Definition attribute_error_issue : ValidationIssue :=
  mkIssue CRITICAL "File"
    "Error reading file: 'NoneType' object has no attribute 'sections'" None.

(** The state in which the checks start on a loaded document. *)
Definition loaded (d : Document) : MemorandumValidator :=
  {| issues := []; document := Some d; paragraphs := doc_paragraphs d |}.

(** The first seven checks, in the order of [validate_file]. *)
Definition text_checks (self : MemorandumValidator) : MemorandumValidator :=
  _validate_attachments
    (_validate_signature_block
       (_validate_body_paragraphs
          (_validate_subject_line
             (_validate_from_line
                (_validate_memorandum_for (_validate_date self)))))).

End Validator.

(** ** The vocabulary of the statements

    Definitions that follow the words of the specification, to be
    compared with what the methods above compute. *)

Module Spec.
Import Regex Validator.

(** [f] appends issues of section [sec] and leaves the rest of [self] alone. *)
Definition emits_in (sec : string) (f : MemorandumValidator -> MemorandumValidator)
  : Prop :=
  forall self, exists l,
    f self = emit l self /\ Forall (fun i => section i = sec) l.

Definition numbering_warning (expected para_num para_idx : Z) : ValidationIssue :=
  mkIssue WARNING "Body"
    ("Paragraph numbering issue: Expected " ++ Text.str_of_int expected
     ++ ", found " ++ Text.str_of_int para_num)
    (Some (para_idx + 1)).

Definition count_info (n : nat) : ValidationIssue :=
  mkIssue INFO "Body"
    ("Found " ++ Text.str_of_int (Z.of_nat n) ++ " numbered paragraph(s)") None.

(** The number expected of candidate [k]: [first] for the first
    candidate, and otherwise one more than the number found on the
    candidate before it. *)
Definition expected_at (first : Z) (found : list (Z * Z)) (k : nat) : Z :=
  match k with
  | O => first
  | S j => fst (nth j found (0, 0)) + 1
  end.

(** One warning for each candidate whose number is not the expected
    one, in document order. *)
Definition numbering_warnings (first : Z) (found : list (Z * Z))
  : list ValidationIssue :=
  flat_map
    (fun k =>
       let (para_num, para_idx) := nth k found (0, 0) in
       if para_num =? expected_at first found k then []
       else [numbering_warning (expected_at first found k) para_num para_idx])
    (seq 0 (List.length found)).

(** The longest prefix of a list whose elements satisfy [p]. *)
Fixpoint take_while {A : Type} (p : A -> bool) (l : list A) : list A :=
  match l with
  | [] => []
  | x :: l' => if p x then x :: take_while p l' else []
  end.

(** A trimmed text that starts with [Tab <digits>]. *)
Definition is_tab (text : string) : bool := re_match tab_pattern text.

(** The tabs of an attachments section, from the trimmed texts that
    follow the anchor: the section runs while the texts are tabs or
    empty, and its tabs are collected. *)
Definition collected_tabs (texts : list string) : list string :=
  List.filter is_tab
    (take_while (fun t => is_tab t || negb (Text.nonempty t)) texts).

(** The trimmed texts of the paragraphs a loop visits. *)
Definition trimmed (l : list (Z * string)) : list string :=
  List.map (fun ip => Text.strip (snd ip)) l.

(** A paragraph whose trimmed text is, from end to end, a day of one or
    two digits, a full month name and a year of four digits. *)
Definition is_date_line (p : string) : bool :=
  fullmatch date_pattern (Text.strip p).

Definition invalid_date_warning (text : string) (i : Z) : ValidationIssue :=
  mkIssue WARNING "Date"
    ("Date format appears correct but may be invalid: " ++ text) (Some (i + 1)).

Definition missing_date_issue : ValidationIssue :=
  mkIssue CRITICAL "Date"
    "Missing or incorrectly formatted date. Expected format: 'DD Month YYYY' (e.g., '12 March 2025')"
    None.

Definition empty_document_issue : ValidationIssue :=
  mkIssue CRITICAL "Date" "Document is empty" None.

Definition all_space (s : string) : Prop := Text.forallb Text.is_space s = true.
Definition all_digits (s : string) : Prop := Text.forallb Text.is_digit s = true.

(** [text] is [anchor] at its very start, then white space, then more. *)
Definition anchored_content (anchor text : string) : Prop :=
  exists ws rest,
    text = anchor ++ ws ++ rest /\ ws <> "" /\ all_space ws /\ rest <> "".

(** Somewhere in [text], [anchor] is followed by white space and then
    by a character that is not white space. *)
Definition followed_by_content (anchor text : string) : Prop :=
  exists before ws c after,
    text = before ++ anchor ++ ws ++ String c after
    /\ ws <> "" /\ all_space ws /\ Text.is_space c = false.


(** [text] starts with [Tab], white space and digits. *)
Definition tab_shaped (text : string) : Prop :=
  exists ws ds rest,
    text = "Tab" ++ ws ++ ds ++ rest
    /\ ws <> "" /\ all_space ws /\ ds <> "" /\ all_digits ds.

(** [text] starts with digits, a full stop and white space. *)
Definition numbered (text : string) : Prop :=
  exists ds ws rest,
    text = ds ++ "." ++ ws ++ rest
    /\ ds <> "" /\ all_digits ds /\ ws <> "" /\ all_space ws.

Definition from_warning (idx : Z) : ValidationIssue :=
  mkIssue WARNING "Header"
    "FROM: line should be followed by sender information" (Some (idx + 1)).

Definition subject_warning (idx : Z) : ValidationIssue :=
  mkIssue WARNING "Header"
    "SUBJECT: line should be followed by subject text" (Some (idx + 1)).

Definition top_margin_info (top : Float64.float) : ValidationIssue :=
  mkIssue INFO "Formatting"
    ("Top margin is " ++ Float64.format_2f top ++ " inches (standard is 1.0 inch)")
    None.

Definition left_margin_info (left : Float64.float) : ValidationIssue :=
  mkIssue INFO "Formatting"
    ("Left margin is " ++ Float64.format_2f left ++ " inches (standard is 1.0 inch)")
    None.

(** The issues of the margin check for a top and a left margin. *)
Definition margin_issues (top left : Float64.float) : list ValidationIssue :=
  ((if off_standard top then [top_margin_info top] else [])
   ++ (if off_standard left then [left_margin_info left] else []))%list.

(** A paragraph that holds [pattern], as the locator looks for it. *)
Definition holds (pattern : regex) (p : string) : bool :=
  re_search (ignorecase pattern) p.

Definition has_anchor (pattern : regex) (ps : list string) : bool :=
  existsb (holds pattern) ps.

(** A date line among the first five paragraphs. *)
Definition has_date (ps : list string) : bool :=
  existsb is_date_line (firstn 5 ps).

(** What follows the first element that satisfies [f], with that element. *)
Fixpoint from_first {A : Type} (f : A -> bool) (l : list A) : list A :=
  match l with
  | [] => []
  | x :: l' => if f x then x :: l' else from_first f l'
  end.

(** The body of a memorandum: the paragraphs after the first Subject
    line, up to the first paragraph that holds the marker, the Subject
    line itself counting. *)
Definition body_region (ps : list string) : list string :=
  match from_first (holds subject_pattern) ps with
  | [] => []
  | p :: post =>
      if holds signed_pattern p then []
      else take_while (fun q => negb (holds signed_pattern q)) post
  end.

(** A paragraph whose trimmed text starts with digits, a full stop and
    white space. *)
Definition is_candidate (p : string) : bool :=
  re_match paragraph_pattern (Text.strip p).


(** The paragraph number of an issue, when it has one, is that of a
    paragraph of a document of [n] paragraphs. *)
Definition located (n : Z) (i : ValidationIssue) : Prop :=
  match paragraph_number i with
  | Some k => 1 <= k <= n
  | None => True
  end.

(** A trimmed text that holds a name, a rank and a branch. *)
Definition is_name_line (p : string) : bool :=
  re_search signature_pattern (Text.strip p).

(** The numbers 1, 2, ..., in order. *)
Fixpoint counting_from (k : Z) (n : nat) : list Z :=
  match n with
  | O => []
  | S n' => k :: counting_from (k + 1) n'
  end.

(** A line of a report that renders an issue. *)
Definition is_issue_line (line : string) : bool := String.prefix "  [" line.

(** The condition of the body check: it has nothing to say without a
    Subject line, and otherwise wants a candidate in the body. *)
Definition body_ok (ps : list string) : bool :=
  negb (has_anchor subject_pattern ps) || existsb is_candidate (body_region ps).

(** What a check does to [self]: it appends issues of its section,
    located in the document, of which one is CRITICAL exactly when the
    paragraphs fail the condition [ok]. *)
Definition check_spec (sec : string) (ok : list string -> bool)
    (f : MemorandumValidator -> MemorandumValidator) : Prop :=
  forall self, exists l,
    f self = emit l self
    /\ Forall (fun i => section i = sec /\ located (len self) i) l
    /\ existsb is_critical l = negb (ok (paragraphs self)).

(** What a stage of a run contributes on a document of [n] paragraphs. *)
Definition stage (sec : string) (ok : bool) (n : Z) (l : list ValidationIssue)
  : Prop :=
  Forall (fun i => section i = sec /\ located n i) l
  /\ existsb is_critical l = negb ok.

(** [self] with another value of [self.document]. *)
Definition with_document (x : option Document) (self : MemorandumValidator)
  : MemorandumValidator :=
  {| issues := issues self; document := x; paragraphs := paragraphs self |}.



Definition optional_attachments_info : ValidationIssue :=
  mkIssue INFO "Attachments" "No attachments section found (optional)" None.

Definition not_found_issue (file_path : string) : ValidationIssue :=
  mkIssue CRITICAL "File" ("File not found: " ++ file_path) None.

Definition read_error_issue (str_e : string) : ValidationIssue :=
  mkIssue CRITICAL "File" ("Error reading file: " ++ str_e) None.

Definition failed_line : string := cross_mark ++ " VALIDATION FAILED".

End Spec.

(** * Supporting lemmas *)

(** ** Strings *)

Module TextFacts.
Import Text.


Lemma append_assoc (a b c : string) : (a ++ b) ++ c = a ++ b ++ c.
Proof. induction a; simpl; congruence. Qed.

Lemma append_eq_nil (a b : string) : a ++ b = "" -> a = "" /\ b = "".
Proof. destruct a; simpl; intros H; [auto | discriminate]. Qed.

Lemma endswith_spec (s p : string) :
  endswith s p = true <-> exists pre, s = pre ++ p.
Proof.
  induction s as [|c s IH]; cbn [endswith].
  - destruct (String.eqb_spec "" p) as [E|E].
    + split; [intros _; exists ""; now subst | trivial].
    + split; [discriminate|]. intros [pre H]. symmetry in H.
      apply append_eq_nil in H. destruct H; subst. congruence.
  - destruct (String.eqb_spec (String c s) p) as [E|E].
    + split; [intros _; exists ""; now subst | trivial].
    + rewrite IH. split.
      * intros [pre H]. exists (String c pre). simpl. now rewrite H.
      * intros [pre H]. destruct pre as [|c' pre]; simpl in H.
        -- congruence.
        -- exists pre. congruence.
Qed.

Lemma forallb_app (p : ascii -> bool) (a b : string) :
  forallb p (a ++ b) = forallb p a && forallb p b.
Proof. induction a as [|c a IH]; simpl; [reflexivity|]. now rewrite IH, andb_assoc. Qed.

Lemma take_drop_while (p : ascii -> bool) (s : string) :
  s = take_while p s ++ drop_while p s.
Proof. induction s as [|c s IH]; simpl; [reflexivity|]. destruct (p c); simpl; congruence. Qed.

Lemma forallb_take_while (p : ascii -> bool) (s : string) :
  forallb p (take_while p s) = true.
Proof. induction s as [|c s IH]; simpl; [reflexivity|]. destruct (p c) eqn:E; simpl; [now rewrite E|reflexivity]. Qed.

Lemma drop_while_head (p : ascii -> bool) (s : string) (c : ascii) (r : string) :
  drop_while p s = String c r -> p c = false.
Proof.
  induction s as [|c' s IH]; simpl; [discriminate|].
  destruct (p c') eqn:E; [exact IH | congruence].
Qed.

Lemma drop_while_nil (p : ascii -> bool) (s : string) :
  drop_while p s = "" -> forallb p s = true.
Proof.
  induction s as [|c s IH]; simpl; [reflexivity|].
  destruct (p c); [exact IH | discriminate].
Qed.

Lemma rstrip_no_trailing_space (s : string) : no_trailing_space (rstrip s).
Proof.
  induction s as [|c s IH]; intros a b E F; cbn [rstrip] in E.
  - symmetry in E. now apply append_eq_nil in E.
  - destruct (rstrip s) as [|c' t] eqn:R.
    + destruct (is_space c) eqn:Sc.
      * symmetry in E. now apply append_eq_nil in E.
      * destruct a as [|c0 a]; simpl in E.
        -- subst b. simpl in F. rewrite Sc in F. discriminate.
        -- injection E as _ E. symmetry in E. now apply append_eq_nil in E.
    + destruct a as [|c0 a]; simpl in E.
      * subst b. simpl in F. apply andb_true_iff in F. destruct F as [_ F].
        specialize (IH "" (String c' t) eq_refl F). discriminate.
      * injection E as _ E. exact (IH a b E F).
Qed.

Lemma strip_no_trailing_space (s : string) : no_trailing_space (strip s).
Proof. apply rstrip_no_trailing_space. Qed.

Lemma nil_no_trailing_space : no_trailing_space "".
Proof. intros a b E _. symmetry in E. now apply append_eq_nil in E. Qed.

Lemma length_append (a b : string) :
  String.length (a ++ b) = (String.length a + String.length b)%nat.
Proof. induction a as [|c a IH]; simpl; [reflexivity | now rewrite IH]. Qed.

End TextFacts.

(** ** The matcher decides the language of a pattern *)

Module RegexFacts.
Import Regex TextFacts.

Lemma cat_inv (r1 r2 : regex) (s : string) :
  matches (Cat r1 r2) s ->
  exists s1 s2, s = s1 ++ s2 /\ matches r1 s1 /\ matches r2 s2.
Proof. inversion 1; subst; eauto. Qed.

Lemma alt_inv (r1 r2 : regex) (s : string) :
  matches (Alt r1 r2) s -> matches r1 s \/ matches r2 s.
Proof. inversion 1; subst; auto. Qed.

Lemma class_inv (p : ascii -> bool) (s : string) :
  matches (Class p) s -> exists c, s = String c "" /\ p c = true.
Proof. inversion 1; subst; eauto. Qed.

Lemma eps_inv (s : string) : matches Eps s -> s = "".
Proof. now inversion 1. Qed.

Lemma void_inv (s : string) : ~ matches Void s.
Proof. inversion 1. Qed.

Lemma m_cat_cons (r1 r2 : regex) (c : ascii) (s1 s2 : string) :
  matches r1 (String c s1) -> matches r2 s2 ->
  matches (Cat r1 r2) (String c (s1 ++ s2)).
Proof. intros H1 H2. apply (m_cat _ _ _ _ H1 H2). Qed.

Lemma nullable_spec (r : regex) : nullable r = true <-> matches r "".
Proof.
  induction r; simpl.
  - split; [discriminate | intros H; now apply void_inv in H].
  - split; [constructor | trivial].
  - split; [discriminate|]. intros H. apply class_inv in H.
    destruct H as (c & E & _). discriminate.
  - rewrite andb_true_iff, IHr1, IHr2. split.
    + intros [H1 H2]. apply (m_cat _ _ "" "" H1 H2).
    + intros H. apply cat_inv in H. destruct H as (s1 & s2 & E & H1 & H2).
      symmetry in E. apply append_eq_nil in E. destruct E; subst. auto.
  - rewrite orb_true_iff, IHr1, IHr2. split.
    + intros [H|H]; [now apply m_alt_l | now apply m_alt_r].
    + apply alt_inv.
  - split; [constructor | trivial].
Qed.

(** A non-empty word of [Star r] starts with a non-empty word of [r]. *)
Lemma star_cons (r : regex) (c : ascii) (s : string) :
  matches (Star r) (String c s) ->
  exists s1 s2, s = s1 ++ s2 /\ matches r (String c s1) /\ matches (Star r) s2.
Proof.
  intros H. remember (Star r) as r' eqn:Er. remember (String c s) as w eqn:Ew.
  revert c s Ew. induction H; intros c0 s0 Ew; try discriminate.
  injection Er as ->. destruct s1 as [|c1 s1]; simpl in Ew.
  - apply IHmatches2; auto.
  - injection Ew as -> <-. exists s1, s2. auto.
Qed.

Lemma deriv_spec (r : regex) :
  forall c s, matches (deriv c r) s <-> matches r (String c s).
Proof.
  induction r; intros c s; simpl.
  - split; intros H; now apply void_inv in H.
  - split; intros H; [now apply void_inv in H | apply eps_inv in H; discriminate].
  - destruct (b c) eqn:E.
    + split; intros H.
      * apply eps_inv in H. subst. now constructor.
      * apply class_inv in H. destruct H as (c' & E' & _).
        injection E' as _ ->. constructor.
    + split; intros H; [now apply void_inv in H|].
      apply class_inv in H. destruct H as (c' & E' & P).
      injection E' as -> _. congruence.
  - assert (Hcat : matches (Cat (deriv c r1) r2) s ->
                   matches (Cat r1 r2) (String c s)).
    { intros H. apply cat_inv in H. destruct H as (s1 & s2 & -> & H1 & H2).
      apply IHr1 in H1. now apply m_cat_cons. }
    assert (Hinv : matches (Cat r1 r2) (String c s) ->
                   (matches (Cat (deriv c r1) r2) s)
                   \/ (matches r1 "" /\ matches r2 (String c s))).
    { intros H. apply cat_inv in H. destruct H as (s1 & s2 & E & H1 & H2).
      destruct s1 as [|c1 s1]; simpl in E.
      - right. subst. auto.
      - injection E as -> ->. left. constructor; auto. now apply IHr1. }
    destruct (nullable r1) eqn:N.
    + split; intros H.
      * apply alt_inv in H. destruct H as [H|H]; auto.
        apply (m_cat _ _ "" (String c s)).
        -- now apply nullable_spec.
        -- now apply IHr2.
      * destruct (Hinv H) as [H'|[_ H']].
        -- now apply m_alt_l.
        -- apply m_alt_r. now apply IHr2.
    + split; auto. intros H. destruct (Hinv H) as [H'|[H' _]]; auto.
      apply nullable_spec in H'. congruence.
  - split; intros H; apply alt_inv in H; destruct H as [H|H];
      [apply m_alt_l; now apply IHr1 | apply m_alt_r; now apply IHr2
      |apply m_alt_l; now apply IHr1 | apply m_alt_r; now apply IHr2].
  - split; intros H.
    + apply cat_inv in H. destruct H as (s1 & s2 & -> & H1 & H2).
      apply IHr in H1. apply (m_star_app _ _ _ H1 H2).
    + apply star_cons in H. destruct H as (s1 & s2 & -> & H1 & H2).
      constructor; auto. now apply IHr.
Qed.


(** [re_match] holds exactly when a prefix of the text is in the language. *)
Lemma re_match_spec (s : string) :
  forall r, re_match r s = true <-> exists s1 s2, s = s1 ++ s2 /\ matches r s1.
Proof.
  induction s as [|c s IH]; intros r; simpl.
  - destruct (nullable r) eqn:N.
    + split; auto. intros _. exists "", "". split; auto. now apply nullable_spec.
    + split; [discriminate|]. intros (s1 & s2 & E & H). symmetry in E.
      apply append_eq_nil in E. destruct E; subst.
      apply nullable_spec in H. congruence.
  - destruct (nullable r) eqn:N.
    + split; auto. intros _. exists "", (String c s). split; auto.
      now apply nullable_spec.
    + rewrite IH. split.
      * intros (s1 & s2 & -> & H). exists (String c s1), s2. split; auto.
        now apply deriv_spec.
      * intros (s1 & s2 & E & H). destruct s1 as [|c1 s1]; simpl in E.
        -- apply nullable_spec in H. congruence.
        -- injection E as <- ->. exists s1, s2. split; auto. now apply deriv_spec.
Qed.

(** [re_search] holds exactly when a factor of the text is in the language. *)
Lemma re_search_spec (s : string) :
  forall r, re_search r s = true <->
            exists s0 s1 s2, s = s0 ++ s1 ++ s2 /\ matches r s1.
Proof.
  induction s as [|c s IH]; intros r; simpl.
  - destruct (nullable r) eqn:N.
    + split; auto. intros _. exists "", "", "". split; auto. now apply nullable_spec.
    + split; [discriminate|]. intros (s0 & s1 & s2 & E & H). symmetry in E.
      apply append_eq_nil in E. destruct E as [-> E].
      apply append_eq_nil in E. destruct E; subst.
      apply nullable_spec in H. congruence.
  - destruct (if nullable r then true else re_match (deriv c r) s) eqn:M.
    + split; auto. intros _.
      change (re_match r (String c s) = true) in M.
      apply re_match_spec in M. destruct M as (s1 & s2 & E & H).
      exists "", s1, s2. auto.
    + rewrite IH. split.
      * intros (s0 & s1 & s2 & -> & H). exists (String c s0), s1, s2. auto.
      * intros (s0 & s1 & s2 & E & H). destruct s0 as [|c0 s0]; simpl in E.
        -- change (re_match r (String c s) = false) in M.
           assert (re_match r (String c s) = true) as M'
               by (apply re_match_spec; eauto).
           congruence.
        -- injection E as <- ->. eauto.
Qed.

(** *** The languages of the building blocks *)

Lemma lit_spec (a s : string) : matches (Lit a) s <-> s = a.
Proof.
  revert s. induction a as [|c a IH]; intros s; simpl.
  - split; [apply eps_inv | intros ->; constructor].
  - split.
    + intros H. apply cat_inv in H. destruct H as (s1 & s2 & -> & H1 & H2).
      apply class_inv in H1. destruct H1 as (c' & -> & E).
      apply Ascii.eqb_eq in E. apply IH in H2. subst. reflexivity.
    + intros ->. apply (m_cat _ _ (String c "") a).
      * constructor. apply Ascii.eqb_refl.
      * now apply IH.
Qed.

Lemma chr_spec (c : ascii) (s : string) : matches (Chr c) s <-> s = String c "".
Proof.
  unfold Chr. split.
  - intros H. apply class_inv in H. destruct H as (c' & -> & E).
    apply Ascii.eqb_eq in E. now subst.
  - intros ->. constructor. apply Ascii.eqb_refl.
Qed.

Lemma star_class_spec (p : ascii -> bool) (s : string) :
  matches (Star (Class p)) s <-> Text.forallb p s = true.
Proof.
  split.
  - intros H. remember (Star (Class p)) as r eqn:Er.
    induction H; try discriminate; [reflexivity|].
    injection Er as ->. apply class_inv in H. destruct H as (c & -> & E).
    simpl. rewrite E. simpl. now apply IHmatches2.
  - induction s as [|c s IH]; simpl; intros H; [constructor|].
    apply andb_true_iff in H. destruct H as [Hc Hs].
    apply (m_star_app _ (String c "") s); [now constructor | now apply IH].
Qed.

Lemma plus_class_spec (p : ascii -> bool) (s : string) :
  matches (Plus (Class p)) s <-> s <> "" /\ Text.forallb p s = true.
Proof.
  unfold Plus. split.
  - intros H. apply cat_inv in H. destruct H as (s1 & s2 & -> & H1 & H2).
    apply class_inv in H1. destruct H1 as (c & -> & E).
    apply star_class_spec in H2. simpl. rewrite E, H2. split; [discriminate|reflexivity].
  - intros [N H]. destruct s as [|c s]; [congruence|]. simpl in H.
    apply andb_true_iff in H. destruct H as [Hc Hs].
    apply (m_cat _ _ (String c "") s); [now constructor | now apply star_class_spec].
Qed.


End RegexFacts.

(** ** Every check only appends to [self.issues] *)

Module Frame.
Import Regex Validator Spec.

Lemma emit_nil (self : MemorandumValidator) : emit [] self = self.
Proof. destruct self. unfold emit. simpl. now rewrite app_nil_r. Qed.

Lemma emit_emit (l1 l2 : list ValidationIssue) (self : MemorandumValidator) :
  emit l2 (emit l1 self) = emit (l1 ++ l2) self.
Proof. unfold emit. simpl. now rewrite app_assoc. Qed.

Lemma append_issue_emit (i : ValidationIssue) (self : MemorandumValidator) :
  append_issue i self = emit [i] self.
Proof. reflexivity. Qed.

Lemma emits_none (sec : string) (self : MemorandumValidator) :
  exists l, self = emit l self /\ Forall (fun i => section i = sec) l.
Proof. exists []. split; [now rewrite emit_nil | constructor]. Qed.

Lemma emits_one (sec msg : string) (sv : Severity) (n : option Z)
    (self : MemorandumValidator) :
  exists l, append_issue (mkIssue sv sec msg n) self = emit l self
            /\ Forall (fun i => section i = sec) l.
Proof. eexists. split; [reflexivity | repeat constructor]. Qed.

Ltac one_or_none := first [apply emits_one | apply emits_none].

Lemma date_loop_emits (l : list (Z * string)) (self : MemorandumValidator) :
  exists l', snd (date_loop self l) = emit l' self
             /\ Forall (fun i => section i = "Date") l'.
Proof.
  induction l as [|[i p] l IH]; simpl.
  - one_or_none.
  - destruct (fullmatch date_pattern (Text.strip p)); [|exact IH].
    simpl. destruct (Strptime.strptime_ok (Text.strip p)); one_or_none.
Qed.

Lemma validate_date_emits : emits_in "Date" _validate_date.
Proof.
  intros self. unfold _validate_date.
  destruct (paragraphs self) eqn:E; [one_or_none|].
  destruct (date_loop_emits (range_paragraphs self 0 (Z.min 5 (len self))) self)
    as (l' & H & F).
  destruct (date_loop self _) as [found self']. simpl in H. subst self'.
  destruct found; simpl.
  - eauto.
  - rewrite append_issue_emit, emit_emit. eexists. split; [reflexivity|].
    apply Forall_app. split; [assumption | repeat constructor].
Qed.

Lemma validate_memorandum_for_emits : emits_in "Header" _validate_memorandum_for.
Proof.
  intros self. unfold _validate_memorandum_for.
  destruct (_ =? -1); [one_or_none|]. destruct (negb _); one_or_none.
Qed.

Lemma validate_from_line_emits : emits_in "Header" _validate_from_line.
Proof.
  intros self. unfold _validate_from_line.
  destruct (_ =? -1); [one_or_none|]. destruct (negb _); one_or_none.
Qed.

Lemma validate_subject_line_emits : emits_in "Header" _validate_subject_line.
Proof.
  intros self. unfold _validate_subject_line.
  destruct (_ =? -1); [one_or_none|]. destruct (negb _); one_or_none.
Qed.





Lemma validate_signature_block_emits : emits_in "Signature" _validate_signature_block.
Proof.
  intros self. unfold _validate_signature_block.
  destruct (_ =? -1); [one_or_none|]. destruct (negb _); one_or_none.
Qed.

Lemma validate_attachments_emits : emits_in "Attachments" _validate_attachments.
Proof.
  intros self. unfold _validate_attachments.
  destruct (_ =? -1); [one_or_none|]. destruct (tab_loop _); one_or_none.
Qed.

Lemma check_margins_emits (sec : DocSection) : emits_in "Formatting" (check_margins sec).
Proof.
  intros self. unfold check_margins.
  destruct (off_standard (margin_inches (top_margin sec)));
    destruct (off_standard (margin_inches (left_margin sec)));
    try one_or_none.
  rewrite !append_issue_emit, emit_emit. eexists. split; [reflexivity|].
  repeat constructor.
Qed.

Lemma validate_formatting_emits (self : MemorandumValidator) :
  _validate_formatting self = None
  \/ exists l, _validate_formatting self = Some (emit l self)
               /\ Forall (fun i => section i = "Formatting") l.
Proof.
  unfold _validate_formatting. destruct (paragraphs self) as [|p ps].
  - right. exists []. split; [now rewrite emit_nil | constructor].
  - destruct (document self) as [d|]; [|now left]. right.
    destruct (doc_sections d) as [|sec secs].
    + exists []. split; [now rewrite emit_nil | constructor].
    + destruct (check_margins_emits sec self) as (l & -> & F). eauto.
Qed.

(** A check of one section emits nothing of another. *)
Lemma emits_in_other (sec bad : string) (f : MemorandumValidator -> MemorandumValidator) :
  emits_in sec f -> sec <> bad ->
  forall self, exists l,
    f self = emit l self /\ Forall (fun i => section i <> bad) l.
Proof.
  intros H N self. destruct (H self) as (l & E & F). exists l. split; [exact E|].
  eapply Forall_impl; [|exact F]. intros i Hi. now rewrite Hi.
Qed.


End Frame.

(** ** The paragraph locator *)

Module Locator.
Import Regex Validator.

Lemma nth_skipn_add (ps : list string) :
  forall s k, nth k (skipn s ps) "" = nth (s + k) ps "".
Proof.
  induction ps as [|p ps IH]; intros s k.
  - rewrite skipn_nil. now destruct k, s.
  - destruct s as [|s]; [reflexivity|]. cbn [skipn Nat.add nth]. apply IH.
Qed.

Lemma indexed_firstn (l : list string) :
  forall n i, (n <= List.length l)%nat ->
    indexed_from i (firstn n l)
    = List.map (fun k => (i + Z.of_nat k, nth k l "")) (seq 0 n).
Proof.
  induction l as [|x l IH]; intros n i L.
  - cbn [List.length] in L. replace n with 0%nat by lia. reflexivity.
  - destruct n as [|n]; [reflexivity|].
    cbn [firstn indexed_from seq List.map nth]. f_equal.
    + f_equal. cbn [Z.of_nat]. lia.
    + rewrite IH by (cbn [List.length] in L; lia).
      rewrite <- seq_shift, map_map. apply map_ext. intros k.
      cbn [nth]. f_equal. lia.
Qed.

(** The loops read [self.paragraphs[i]] for the [i] of [range(start, stop)]. *)
Lemma range_paragraphs_index (self : MemorandumValidator) (start stop : Z) :
  0 <= start -> stop <= len self ->
  range_paragraphs self start stop
  = List.map (fun i => (i, nth (Z.to_nat i) (paragraphs self) ""))
      (py_range start stop).
Proof.
  unfold range_paragraphs, py_range, len. intros S L.
  rewrite indexed_firstn by (rewrite length_skipn; lia).
  rewrite map_map. apply map_ext. intros k.
  rewrite nth_skipn_add. do 2 f_equal. lia.
Qed.

Lemma range_paragraphs_all (self : MemorandumValidator) :
  range_paragraphs self 0 (len self) = indexed_from 0 (paragraphs self).
Proof.
  unfold range_paragraphs, len. rewrite Z.sub_0_r, Nat2Z.id. simpl.
  now rewrite firstn_all.
Qed.

(** The locator returns the sentinel when no paragraph matches, and
    otherwise the index of the first paragraph that does. *)
Lemma find_in_spec (pattern : regex) (ps : list string) :
  forall i, 0 <= i ->
    (find_in pattern (indexed_from i ps) = -1
     /\ Forall (fun p => re_search (ignorecase pattern) p = false) ps)
    \/ (exists pre p post,
           ps = (pre ++ p :: post)%list
           /\ Forall (fun q => re_search (ignorecase pattern) q = false) pre
           /\ re_search (ignorecase pattern) p = true
           /\ find_in pattern (indexed_from i ps) = i + Z.of_nat (List.length pre)).
Proof.
  induction ps as [|p ps IH]; intros i Hi; simpl.
  - left. split; [reflexivity | constructor].
  - destruct (re_search (ignorecase pattern) p) eqn:E.
    + right. exists [], p, ps. simpl. repeat split; auto. lia.
    + destruct (IH (i + 1)) as [[H F]|(pre & q & post & -> & F & M & H)]; [lia| |].
      * left. split; auto.
      * right. exists (p :: pre), q, post. simpl. repeat split; auto.
        rewrite H. lia.
Qed.

Lemma find_none (self : MemorandumValidator) (pattern : regex) :
  (forall p, In p (paragraphs self) -> re_search (ignorecase pattern) p = false) ->
  _find_paragraph_index self pattern 0 = -1.
Proof.
  intros H. unfold _find_paragraph_index. rewrite range_paragraphs_all.
  destruct (find_in_spec pattern (paragraphs self) 0) as [[E _]|(pre & p & post & E & _ & M & _)];
    [lia | exact E |].
  rewrite H in M; [discriminate|]. rewrite E. apply in_or_app. right. now left.
Qed.





Lemma find_in_first (pattern : regex) (pre : list string) (p : string)
    (post : list string) :
  forall i,
    (forall q, In q pre -> re_search (ignorecase pattern) q = false) ->
    re_search (ignorecase pattern) p = true ->
    find_in pattern (indexed_from i (pre ++ p :: post)) = i + Z.of_nat (List.length pre).
Proof.
  induction pre as [|q pre IH]; intros i H M; cbn [app indexed_from find_in List.length].
  - rewrite M. cbn [Z.of_nat]. lia.
  - rewrite (H q) by now left. rewrite IH; [lia | | exact M].
    intros r I. apply H. now right.
Qed.

(** The locator returns the position of the first paragraph that holds
    the pattern. *)
Lemma find_first (self : MemorandumValidator) (pattern : regex)
    (pre : list string) (p : string) (post : list string) :
  paragraphs self = (pre ++ p :: post)%list ->
  (forall q, In q pre -> re_search (ignorecase pattern) q = false) ->
  re_search (ignorecase pattern) p = true ->
  _find_paragraph_index self pattern 0 = Z.of_nat (List.length pre).
Proof.
  intros P H M. unfold _find_paragraph_index.
  rewrite range_paragraphs_all, P. now rewrite find_in_first.
Qed.

Lemma get_text_at (self : MemorandumValidator)
    (pre : list string) (p : string) (post : list string) :
  paragraphs self = (pre ++ p :: post)%list ->
  _get_text_by_index self (Z.of_nat (List.length pre)) = Text.strip p.
Proof.
  intros P. unfold _get_text_by_index, len. rewrite P, Nat2Z.id.
  rewrite nth_middle.
  replace ((0 <=? Z.of_nat (List.length pre))
           && (Z.of_nat (List.length pre)
               <? Z.of_nat (List.length (pre ++ p :: post))))
    with true; [reflexivity|].
  symmetry. apply andb_true_iff. split; [apply Z.leb_le; lia|].
  apply Z.ltb_lt. rewrite length_app. cbn [List.length]. lia.
Qed.

End Locator.

(** ** The entry point *)

Module Run.
Import Regex Validator Frame.

Lemma no_critical_iff (l : list ValidationIssue) :
  (List.length (List.filter is_critical l) =? 0)%nat = true
  <-> Forall (fun i => severity i <> CRITICAL) l.
Proof.
  induction l as [|i l IH]; simpl.
  - split; [constructor | reflexivity].
  - unfold is_critical at 1. destruct (severity i) eqn:E; simpl.
    + split; [discriminate|]. inversion 1; subst. congruence.
    + rewrite IH. split; [constructor; [congruence | assumption]|].
      now inversion 1.
    + rewrite IH. split; [constructor; [congruence | assumption]|].
      now inversion 1.
Qed.

Lemma critical_last (l : list ValidationIssue) (sec msg : string) (n : option Z) :
  ~ Forall (fun i => severity i <> CRITICAL) (l ++ [mkIssue CRITICAL sec msg n])%list.
Proof.
  intros H. apply Forall_app in H. destruct H as [_ H].
  inversion H; subst. simpl in *. congruence.
Qed.

Lemma validate_file_loaded (open_docx : string -> Opened)
    (self : MemorandumValidator) (path : string) (d : Document) :
  Text.endswith path ".docx" = true ->
  open_docx path = Loaded d ->
  validate_file open_docx self path =
    match _validate_formatting (text_checks (loaded d)) with
    | Some self' =>
        (((List.length (List.filter is_critical (issues self')) =? 0)%nat,
          issues self'), self')
    | None =>
        ((false, issues (text_checks (loaded d)) ++ [attribute_error_issue])%list,
         append_issue attribute_error_issue (text_checks (loaded d)))
    end.
Proof.
  intros E O. unfold validate_file, text_checks, loaded.
  rewrite E, O. cbn [negb issues]. reflexivity.
Qed.

Lemma validate_file_wrong_extension (open_docx : string -> Opened)
    (self : MemorandumValidator) (path : string) :
  Text.endswith path ".docx" = false ->
  validate_file open_docx self path =
    ((false, [file_issue]),
     {| issues := [file_issue]; document := document self;
        paragraphs := paragraphs self |}).
Proof.
  intros E. unfold validate_file. rewrite E. cbn [negb]. reflexivity.
Qed.

Lemma validate_file_raised (open_docx : string -> Opened)
    (self : MemorandumValidator) (path : string) :
  Text.endswith path ".docx" = true ->
  (forall d, open_docx path <> Loaded d) ->
  exists msg,
    validate_file open_docx self path =
      ((false, [mkIssue CRITICAL "File" msg None]),
       {| issues := [mkIssue CRITICAL "File" msg None];
          document := document self; paragraphs := paragraphs self |}).
Proof.
  intros E O. unfold validate_file. rewrite E. cbn [negb].
  destruct (open_docx path) as [d| |msg].
  - now destruct (O d).
  - eexists. reflexivity.
  - eexists. reflexivity.
Qed.

(** The checks that run before the body check emit nothing of a section
    other than "Date" and "Header". *)
Lemma header_stage (d : Document) (bad : string) :
  "Date" <> bad -> "Header" <> bad ->
  exists l,
    _validate_subject_line
      (_validate_from_line (_validate_memorandum_for (_validate_date (loaded d))))
    = emit l (loaded d)
    /\ Forall (fun i => section i <> bad) l.
Proof.
  intros ND NH.
  destruct (emits_in_other _ _ _ validate_date_emits ND (loaded d)) as (l1 & -> & F1).
  destruct (emits_in_other _ _ _ validate_memorandum_for_emits NH (emit l1 (loaded d)))
    as (l2 & -> & F2).
  rewrite emit_emit.
  destruct (emits_in_other _ _ _ validate_from_line_emits NH (emit (l1 ++ l2) (loaded d)))
    as (l3 & -> & F3).
  rewrite emit_emit.
  destruct (emits_in_other _ _ _ validate_subject_line_emits NH
              (emit ((l1 ++ l2) ++ l3) (loaded d))) as (l4 & -> & F4).
  rewrite emit_emit. eexists. split; [reflexivity|].
  repeat (apply Forall_app; split); assumption.
Qed.

(** The issues of a run once the first seven checks are done: what the
    margin check adds, or the issue of the handler. *)
Lemma formatting_stage (open_docx : string -> Opened)
    (self : MemorandumValidator) (path : string) (d : Document) :
  Text.endswith path ".docx" = true ->
  open_docx path = Loaded d ->
  exists l,
    snd (fst (validate_file open_docx self path))
    = (issues (text_checks (loaded d)) ++ l)%list
    /\ Forall (fun i => section i = "Formatting" \/ section i = "File") l.
Proof.
  intros E O. rewrite (validate_file_loaded _ _ _ _ E O).
  generalize (text_checks (loaded d)). intros s.
  destruct (validate_formatting_emits s) as [->|(l & -> & F)]; cbn [fst snd].
  - exists [attribute_error_issue]. split; [reflexivity|].
    constructor; [now right | constructor].
  - exists l. split; [reflexivity|]. eapply Forall_impl; [|exact F].
    intros i Hi. now left.
Qed.

(** The two documents of [create_test_document]: what the checks on the
    text find in them, whatever their sections. *)
Example valid_memo_issues (secs : list DocSection) :
  issues (text_checks (loaded (mkDocument (create_test_document true) secs))) =
    [ mkIssue INFO "Body" "Found 3 numbered paragraph(s)" None;
      mkIssue INFO "Attachments" "Found 2 attachment tab(s)" None ].
Proof. vm_compute. reflexivity. Qed.

Example invalid_memo_issues (secs : list DocSection) :
  issues (text_checks (loaded (mkDocument (create_test_document false) secs))) =
    [ mkIssue CRITICAL "Date"
        "Missing or incorrectly formatted date. Expected format: 'DD Month YYYY' (e.g., '12 March 2025')"
        None;
      mkIssue CRITICAL "Header" "Missing 'MEMORANDUM FOR' line" None;
      mkIssue CRITICAL "Header" "Missing 'FROM:' line" None;
      mkIssue CRITICAL "Body"
        "No numbered paragraphs found. Body paragraphs should be numbered (1., 2., 3., etc.)"
        None;
      mkIssue WARNING "Signature"
        "Signature block may be incomplete. Expected format: 'Name, Rank, Branch'"
        (Some 13);
      mkIssue WARNING "Attachments" "Attachments section found but no tabs listed"
        (Some 17) ].
Proof. vm_compute. reflexivity. Qed.

End Run.

(** ** The numbering walk *)

Module Numbering.
Import Regex Validator Spec Frame.

Lemma flat_map_map {A B C : Type} (f : B -> list C) (g : A -> B) (l : list A) :
  flat_map f (List.map g l) = flat_map (fun x => f (g x)) l.
Proof. induction l as [|x l IH]; simpl; [reflexivity | now rewrite IH]. Qed.

Lemma numbering_warnings_cons (first n i : Z) (found : list (Z * Z)) :
  numbering_warnings first ((n, i) :: found) =
    ((if n =? first then [] else [numbering_warning first n i])
     ++ numbering_warnings (n + 1) found)%list.
Proof.
  unfold numbering_warnings. cbn [List.length seq flat_map nth expected_at].
  f_equal. rewrite <- seq_shift, flat_map_map. apply flat_map_ext.
  intros k. cbn [nth]. destruct k as [|j]; reflexivity.
Qed.

(** The loop over [found_paragraphs] appends the warnings of the
    specification, whatever the value [expected] starts from. *)
Lemma walk_warnings (found : list (Z * Z)) :
  forall expected self,
    snd (fold_left numbering_step found (expected, self))
    = emit (numbering_warnings expected found) self.
Proof.
  induction found as [|[n i] found IH]; intros expected self.
  - cbn [fold_left snd]. unfold numbering_warnings. simpl. now rewrite emit_nil.
  - cbn [fold_left]. rewrite numbering_warnings_cons. unfold numbering_step at 2.
    rewrite IH. destruct (n =? expected); cbn [negb].
    + reflexivity.
    + now rewrite append_issue_emit, emit_emit.
Qed.

Lemma report_numbering_cons (self : MemorandumValidator) (f : Z * Z)
    (found : list (Z * Z)) :
  report_numbering self (f :: found) =
    emit (numbering_warnings 1 (f :: found) ++ [count_info (S (List.length found))]) self.
Proof.
  unfold report_numbering.
  pose proof (walk_warnings (f :: found) 1 self) as W.
  destruct (fold_left numbering_step (f :: found) (1, self)) as [e self'].
  cbn [snd] in W. subst self'.
  now rewrite append_issue_emit, emit_emit.
Qed.

(** The candidates of the body check, and the number read on one:
    the capture group is the run of digits before the full stop. *)
Lemma candidate_numbered (text : string) :
  re_match paragraph_pattern text = true <-> numbered text.
Proof.
  unfold numbered, paragraph_pattern. rewrite RegexFacts.re_match_spec. split.
  - intros (s1 & s2 & -> & H).
    apply RegexFacts.cat_inv in H. destruct H as (ds & r & -> & Hd & H).
    apply RegexFacts.cat_inv in H. destruct H as (dot & ws & -> & Hdot & Hw).
    apply RegexFacts.chr_spec in Hdot. subst dot.
    apply RegexFacts.plus_class_spec in Hw, Hd. destruct Hw, Hd.
    exists ds, ws, s2. repeat split; try assumption.
    now rewrite !TextFacts.append_assoc.
  - intros (ds & ws & rest & -> & Nd & Dd & Nw & Sw).
    exists (ds ++ "." ++ ws), rest. split.
    + now rewrite !TextFacts.append_assoc.
    + apply m_cat; [now apply RegexFacts.plus_class_spec|].
      apply m_cat; [now apply RegexFacts.chr_spec | now apply RegexFacts.plus_class_spec].
Qed.

Lemma body_number_group (ds rest : string) :
  all_digits ds ->
  body_number (ds ++ "." ++ rest) = Text.int_of_digits ds.
Proof.
  intros D. unfold body_number. f_equal. unfold all_digits in D.
  induction ds as [|c ds IH]; simpl in *; [reflexivity|].
  apply andb_true_iff in D. destruct D as [-> D]. now rewrite IH.
Qed.

End Numbering.

(** ** The scan of the attachments section *)

Module Tabs.
Import Regex Validator Spec.

Lemma tab_loop_collected (l : list (Z * string)) :
  tab_loop l = collected_tabs (trimmed l).
Proof.
  unfold collected_tabs, trimmed, is_tab.
  induction l as [|[i p] l IH]; cbn [tab_loop List.map take_while snd]; [reflexivity|].
  destruct (re_match tab_pattern (Text.strip p)) eqn:T; cbn [orb negb andb].
  - cbn [List.filter]. rewrite T. now rewrite IH.
  - destruct (Text.nonempty (Text.strip p)); cbn [negb andb].
    + reflexivity.
    + cbn [List.filter]. rewrite T. exact IH.
Qed.

Lemma is_tab_shaped (text : string) : is_tab text = true <-> tab_shaped text.
Proof.
  unfold is_tab, tab_shaped, tab_pattern. rewrite RegexFacts.re_match_spec. split.
  - intros (s1 & s2 & -> & H).
    apply RegexFacts.cat_inv in H. destruct H as (t & r & -> & Ht & H).
    apply RegexFacts.cat_inv in H. destruct H as (ws & ds & -> & Hw & Hd).
    apply RegexFacts.lit_spec in Ht. subst t.
    apply RegexFacts.plus_class_spec in Hw, Hd. destruct Hw, Hd.
    exists ws, ds, s2. repeat split; try assumption.
    now rewrite !TextFacts.append_assoc.
  - intros (ws & ds & rest & -> & Nw & Sw & Nd & Dd).
    exists ("Tab" ++ ws ++ ds), rest. split.
    + now rewrite !TextFacts.append_assoc.
    + apply m_cat; [now apply RegexFacts.lit_spec|].
      apply m_cat; now apply RegexFacts.plus_class_spec.
Qed.

End Tabs.

(** ** The date check *)

Module DateCheck.
Import Regex Validator Spec Frame.

(** The loop visits the first five paragraphs, or all of them when
    there are fewer. *)
Lemma date_window (self : MemorandumValidator) :
  range_paragraphs self 0 (Z.min 5 (len self))
  = indexed_from 0 (firstn 5 (paragraphs self)).
Proof.
  unfold range_paragraphs, len. rewrite Z.sub_0_r. cbn [Z.to_nat skipn].
  f_equal. destruct (Z.min_spec 5 (Z.of_nat (List.length (paragraphs self))))
    as [[L ->]|[L ->]].
  - reflexivity.
  - rewrite Nat2Z.id. rewrite firstn_all. symmetry. apply firstn_all2. lia.
Qed.

Lemma date_loop_none (self : MemorandumValidator) (ps : list string) :
  forall i,
    (forall p, In p ps -> is_date_line p = false) ->
    date_loop self (indexed_from i ps) = (false, self).
Proof.
  induction ps as [|p ps IH]; intros i H; cbn [indexed_from date_loop]; [reflexivity|].
  pose proof (H p (or_introl eq_refl)) as Hp. unfold is_date_line in Hp. rewrite Hp.
  apply IH. intros q I. apply H. now right.
Qed.

Lemma date_loop_first (self : MemorandumValidator) (pre : list string)
    (p : string) (post : list string) :
  forall i,
    (forall q, In q pre -> is_date_line q = false) ->
    is_date_line p = true ->
    date_loop self (indexed_from i (pre ++ p :: post)) =
      (true,
       if Strptime.strptime_ok (Text.strip p) then self
       else append_issue
              (invalid_date_warning (Text.strip p) (i + Z.of_nat (List.length pre)))
              self).
Proof.
  induction pre as [|q pre IH]; intros i H M.
  - cbn [app indexed_from date_loop List.length Z.of_nat]. unfold is_date_line in M.
    rewrite M, Z.add_0_r. reflexivity.
  - cbn [app indexed_from date_loop].
    pose proof (H q (or_introl eq_refl)) as Hq. unfold is_date_line in Hq. rewrite Hq.
    rewrite IH; [|intros r I; apply H; now right | exact M].
    replace (i + 1 + Z.of_nat (List.length pre))
      with (i + Z.of_nat (List.length (q :: pre))); [reflexivity|].
    cbn [List.length]. lia.
Qed.






End DateCheck.

(** ** The header lines *)

Module Headers.
Import Regex Validator Spec TextFacts RegexFacts.

(** On a trimmed text, [^ANCHOR\s+.+] matches exactly when the text is
    the anchor, then white space, then more text. *)
Lemma anchor_line_spec (anchor text : string) :
  Text.no_trailing_space text ->
  re_match (Cat (Lit anchor) (Cat (Plus Space) (Plus Dot))) text = true
  <-> anchored_content anchor text.
Proof.
  intros NT. rewrite re_match_spec. split.
  - intros (s1 & s2 & -> & H).
    apply cat_inv in H. destruct H as (a & r & -> & Ha & Hr).
    apply lit_spec in Ha. subst a.
    apply cat_inv in Hr. destruct Hr as (w & dts & -> & Hw & Hd).
    apply plus_class_spec in Hw. destruct Hw as [Nw Fw].
    apply plus_class_spec in Hd. destruct Hd as [Nd _].
    exists w, (dts ++ s2). repeat split; auto.
    + now rewrite !append_assoc.
    + intros E. apply append_eq_nil in E. now destruct E.
  - intros (ws & rest & -> & Nw & Fw & Nr).
    set (u := ws ++ rest).
    assert (Hsp : Text.take_while Text.is_space u <> "").
    { unfold u. destruct ws as [|c ws]; [congruence|]. simpl.
      unfold all_space in Fw. simpl in Fw. apply andb_true_iff in Fw.
      destruct Fw as [-> _]. discriminate. }
    destruct (Text.drop_while Text.is_space u) as [|c dr] eqn:D.
    + exfalso. apply drop_while_nil in D.
      assert (U : u = "") by (apply (NT anchor u); [reflexivity | exact D]).
      unfold u in U. apply append_eq_nil in U. now destruct U.
    + pose proof (drop_while_head _ _ _ _ D) as Hc.
      exists (anchor ++ Text.take_while Text.is_space u ++ String c ""), dr. split.
      * rewrite !append_assoc. f_equal. fold u.
        rewrite (take_drop_while Text.is_space u) at 1. rewrite D.
        reflexivity.
      * apply m_cat; [now apply lit_spec|]. apply m_cat.
        -- apply plus_class_spec. split; [exact Hsp | apply forallb_take_while].
        -- apply plus_class_spec. split; [discriminate|]. simpl.
           rewrite andb_true_r. apply negb_true_iff. apply Ascii.eqb_neq.
           intros ->. vm_compute in Hc. discriminate.
Qed.

End Headers.

(** ** The margin check *)

Module Margins.
Import Validator Spec Frame.

Lemma check_margins_issues (sec : DocSection) (self : MemorandumValidator) :
  check_margins sec self =
    emit (margin_issues (margin_inches (top_margin sec))
            (margin_inches (left_margin sec))) self.
Proof.
  unfold check_margins, margin_issues.
  destruct (off_standard (margin_inches (top_margin sec)));
    destruct (off_standard (margin_inches (left_margin sec))); cbn [app].
  - now rewrite !append_issue_emit, emit_emit.
  - reflexivity.
  - reflexivity.
  - now rewrite emit_nil.
Qed.

(** The integer lengths next to the two ends of the tolerance. *)
Example tolerance_edges :
  off_standard (inches 822959) = true
  /\ off_standard (inches 822960) = false
  /\ off_standard (inches 1005839) = false
  /\ off_standard (inches 1005840) = true.
Proof. repeat split; vm_compute; reflexivity. Qed.

(** The text of the issue for the margins 1.15 inch and 1.25 inch. *)
Example margin_messages :
  Float64.format_2f (inches 1051560) = "1.15"
  /\ Float64.format_2f (inches 1143000) = "1.25"
  /\ Float64.format_2f (margin_inches None) = "0.00".
Proof. repeat split; vm_compute; reflexivity. Qed.

End Margins.

(** ** More on strings and on the locator *)

Module Anchors.
Import Regex Validator Spec TextFacts.

Lemma prefix_spec (a s : string) :
  String.prefix a s = true <-> exists rest, s = a ++ rest.
Proof.
  revert s. induction a as [|c a IH]; intros s.
  - split; [intros _; now exists s | intros _; now destruct s].
  - destruct s as [|c' s]; simpl.
    + split; [discriminate | intros [rest H]; discriminate].
    + destruct (ascii_dec c c') as [->|N].
      * rewrite IH. split; intros [rest H]; exists rest; congruence.
      * split; [discriminate | intros [rest H]; congruence].
Qed.

Lemma lstrip_head (s : string) (c : ascii) (r : string) :
  Text.lstrip s = String c r -> Text.is_space c = false.
Proof.
  induction s as [|c' s IH]; simpl; [discriminate|].
  destruct (Text.is_space c') eqn:E; [exact IH | congruence].
Qed.

Lemma rstrip_head (s : string) (c : ascii) (r : string) :
  Text.rstrip s = String c r -> exists r', s = String c r'.
Proof.
  destruct s as [|c' s]; cbn [Text.rstrip]; [discriminate|].
  destruct (Text.rstrip s); [destruct (Text.is_space c')|]; intros H;
    try discriminate; injection H as -> _; eauto.
Qed.

Lemma no_trailing_space_tail (c : ascii) (t : string) :
  Text.no_trailing_space (String c t) -> Text.no_trailing_space t.
Proof. intros H a b E. apply (H (String c a) b). simpl. now rewrite E. Qed.

Lemma rstrip_fixed (t : string) : Text.no_trailing_space t -> Text.rstrip t = t.
Proof.
  induction t as [|c t IH]; intros NT; cbn [Text.rstrip]; [reflexivity|].
  rewrite IH by (eapply no_trailing_space_tail; exact NT).
  destruct t as [|c' t]; [|reflexivity].
  destruct (Text.is_space c) eqn:E; [|reflexivity].
  specialize (NT "" (String c "") eq_refl). simpl in NT. rewrite E in NT.
  discriminate (NT eq_refl).
Qed.

Lemma lstrip_fixed (t : string) :
  (forall c r, t = String c r -> Text.is_space c = false) -> Text.lstrip t = t.
Proof.
  destruct t as [|c t]; intros H; simpl; [reflexivity|].
  now rewrite (H c t eq_refl).
Qed.

(** Trimming a trimmed text changes nothing. *)
Lemma strip_idempotent (s : string) : Text.strip (Text.strip s) = Text.strip s.
Proof.
  unfold Text.strip at 1. rewrite lstrip_fixed.
  - apply rstrip_fixed. apply strip_no_trailing_space.
  - intros c r E. unfold Text.strip in E. apply rstrip_head in E.
    destruct E as [r' E]. eapply lstrip_head. exact E.
Qed.

Lemma existsb_first {A : Type} (f : A -> bool) (l : list A) :
  existsb f l = true ->
  exists pre x post,
    l = (pre ++ x :: post)%list /\ (forall y, In y pre -> f y = false) /\ f x = true.
Proof.
  induction l as [|x l IH]; simpl; [discriminate|].
  destruct (f x) eqn:E.
  - intros _. exists [], x, l. repeat split; auto. intros y [].
  - intros H. destruct (IH H) as (pre & y & post & -> & N & M).
    exists (x :: pre), y, post. repeat split; auto.
    intros z [<-|I]; auto.
Qed.

Lemma existsb_none {A : Type} (f : A -> bool) (l : list A) :
  existsb f l = false -> forall y, In y l -> f y = false.
Proof.
  induction l as [|x l IH]; simpl; [intros _ y []|].
  intros H. apply orb_false_iff in H. destruct H as [Hx Hl].
  intros y [<-|I]; auto.
Qed.

(** The two outcomes of a search from the top, on the list of paragraphs. *)
Lemma find_cases (self : MemorandumValidator) (pattern : regex) :
  (has_anchor pattern (paragraphs self) = false
   /\ _find_paragraph_index self pattern 0 = -1)
  \/ (has_anchor pattern (paragraphs self) = true
      /\ exists pre p post,
           paragraphs self = (pre ++ p :: post)%list
           /\ (forall q, In q pre -> holds pattern q = false)
           /\ holds pattern p = true
           /\ _find_paragraph_index self pattern 0 = Z.of_nat (List.length pre)).
Proof.
  unfold has_anchor. destruct (existsb (holds pattern) (paragraphs self)) eqn:E.
  - right. split; [reflexivity|].
    destruct (existsb_first _ _ E) as (pre & p & post & P & N & M).
    exists pre, p, post. repeat split; auto.
    now apply Locator.find_first with (p := p) (post := post).
  - left. split; [reflexivity|]. apply Locator.find_none.
    now apply existsb_none.
Qed.

(** The paragraphs of a loop that starts after [pre]. *)
Lemma range_after (self : MemorandumValidator) (pre post : list string) (stop : Z) :
  paragraphs self = (pre ++ post)%list ->
  range_paragraphs self (Z.of_nat (List.length pre)) stop
  = indexed_from (Z.of_nat (List.length pre))
      (firstn (Z.to_nat (stop - Z.of_nat (List.length pre))) post).
Proof.
  intros P. unfold range_paragraphs. rewrite P, Nat2Z.id.
  rewrite skipn_app, skipn_all, Nat.sub_diag. reflexivity.
Qed.

Lemma indexed_from_bounds (l : list string) :
  forall a i p, In (i, p) (indexed_from a l) ->
                a <= i < a + Z.of_nat (List.length l).
Proof.
  induction l as [|q l IH]; intros a i p; cbn [indexed_from In List.length]; [tauto|].
  intros [E|H].
  - injection E as <- _. lia.
  - apply IH in H. lia.
Qed.

(** A loop over a range that starts at or after 0 visits indexes of
    paragraphs only. *)
Lemma range_paragraphs_bounds (self : MemorandumValidator) (start stop i : Z)
    (p : string) :
  0 <= start ->
  In (i, p) (range_paragraphs self start stop) -> start <= i < len self.
Proof.
  intros S H. unfold range_paragraphs in H. apply indexed_from_bounds in H.
  rewrite length_firstn, length_skipn in H. unfold len. lia.
Qed.

End Anchors.

(** ** What each check appends *)

Module Gate.
Import Regex Validator Spec Frame Anchors.

Lemma located_none (n : Z) (sv : Severity) (sec msg : string) :
  located n (mkIssue sv sec msg None).
Proof. exact I. Qed.

Lemma located_after (pre : list string) (p : string) (post : list string)
    (sv : Severity) (sec msg : string) :
  located (Z.of_nat (List.length (pre ++ p :: post)))
    (mkIssue sv sec msg (Some (Z.of_nat (List.length pre) + 1))).
Proof. unfold located. cbn [paragraph_number]. rewrite length_app. cbn [List.length]. lia. Qed.

Lemma spec_nil (sec : string) (ok : bool) (self : MemorandumValidator) :
  ok = true ->
  exists l, self = emit l self
            /\ Forall (fun i => section i = sec /\ located (len self) i) l
            /\ existsb is_critical l = negb ok.
Proof. intros ->. exists []. split; [now rewrite emit_nil|]. split; [constructor | reflexivity]. Qed.

Lemma spec_one (i : ValidationIssue) (sec : string) (ok : bool)
    (self : MemorandumValidator) :
  section i = sec -> located (len self) i -> is_critical i = negb ok ->
  exists l, append_issue i self = emit l self
            /\ Forall (fun i => section i = sec /\ located (len self) i) l
            /\ existsb is_critical l = negb ok.
Proof.
  intros S L C. exists [i]. split; [reflexivity|]. split; [repeat constructor; assumption|].
  cbn [existsb]. now rewrite orb_false_r.
Qed.

(** *** The date check *)

Lemma validate_date_missing (self : MemorandumValidator) :
  has_date (paragraphs self) = false ->
  _validate_date self =
    append_issue
      (match paragraphs self with
       | [] => empty_document_issue
       | _ => missing_date_issue
       end) self.
Proof.
  intros H. unfold has_date in H. pose proof (existsb_none _ _ H) as N.
  unfold _validate_date. destruct (paragraphs self) as [|p0 ps] eqn:P; [reflexivity|].
  rewrite DateCheck.date_window, P.
  rewrite DateCheck.date_loop_none; [reflexivity | exact N].
Qed.

Lemma validate_date_found (self : MemorandumValidator) :
  has_date (paragraphs self) = true ->
  exists pre p post,
    firstn 5 (paragraphs self) = (pre ++ p :: post)%list
    /\ _validate_date self =
         if Strptime.strptime_ok (Text.strip p) then self
         else append_issue
                (invalid_date_warning (Text.strip p) (Z.of_nat (List.length pre))) self.
Proof.
  intros H. unfold has_date in H.
  destruct (existsb_first _ _ H) as (pre & p & post & W & N & M).
  exists pre, p, post. split; [exact W|]. unfold _validate_date.
  destruct (paragraphs self) as [|p0 ps] eqn:P.
  - destruct pre; discriminate W.
  - rewrite DateCheck.date_window, P, W.
    rewrite (DateCheck.date_loop_first self pre p post 0 N M). reflexivity.
Qed.

Lemma date_spec : check_spec "Date" has_date _validate_date.
Proof.
  intros self. destruct (has_date (paragraphs self)) eqn:H.
  - destruct (validate_date_found self H) as (pre & p & post & W & ->).
    destruct (Strptime.strptime_ok (Text.strip p)).
    + now apply spec_nil.
    + apply spec_one; try reflexivity.
      unfold located, invalid_date_warning. cbn [paragraph_number].
      assert (L : (List.length (pre ++ p :: post) <= List.length (paragraphs self))%nat).
      { rewrite <- W. rewrite length_firstn. lia. }
      rewrite length_app in L. cbn [List.length] in L. unfold len. lia.
  - rewrite (validate_date_missing self H).
    apply spec_one; [now destruct (paragraphs self) | | now destruct (paragraphs self)].
    destruct (paragraphs self); exact I.
Qed.

(** *** The checks that start from an anchor *)

Ltac anchor_cases self pattern :=
  destruct (find_cases self pattern)
    as [[H F]|(H & pre & p & post & P & N & M & F)];
  rewrite F, H;
  [ cbn [Z.eqb]
  | replace (Z.of_nat (List.length pre) =? -1) with false
      by (symmetry; apply Z.eqb_neq; lia) ].

Ltac located_at P := unfold len; rewrite P; apply located_after.

Lemma memorandum_for_spec :
  check_spec "Header" (has_anchor memorandum_for_pattern) _validate_memorandum_for.
Proof.
  intros self. unfold _validate_memorandum_for.
  anchor_cases self memorandum_for_pattern.
  - now apply spec_one.
  - destruct (negb _); [|now apply spec_nil].
    apply spec_one; try reflexivity. located_at P.
Qed.

Lemma from_line_spec : check_spec "Header" (has_anchor from_pattern) _validate_from_line.
Proof.
  intros self. unfold _validate_from_line.
  anchor_cases self from_pattern.
  - now apply spec_one.
  - destruct (negb _); [|now apply spec_nil].
    apply spec_one; try reflexivity. located_at P.
Qed.

Lemma subject_line_spec :
  check_spec "Header" (has_anchor subject_pattern) _validate_subject_line.
Proof.
  intros self. unfold _validate_subject_line.
  anchor_cases self subject_pattern.
  - now apply spec_one.
  - destruct (negb _); [|now apply spec_nil].
    apply spec_one; try reflexivity. located_at P.
Qed.

Lemma signature_block_spec :
  check_spec "Signature" (has_anchor signed_pattern) _validate_signature_block.
Proof.
  intros self. unfold _validate_signature_block.
  anchor_cases self signed_pattern.
  - now apply spec_one.
  - destruct (negb _); [|now apply spec_nil].
    apply spec_one; try reflexivity. located_at P.
Qed.

Lemma attachments_spec :
  check_spec "Attachments" (fun _ => true) _validate_attachments.
Proof.
  intros self. unfold _validate_attachments.
  destruct (find_cases self attachments_pattern)
    as [[H F]|(H & pre & p & post & P & N & M & F)]; rewrite F.
  - cbn [Z.eqb]. now apply spec_one.
  - replace (Z.of_nat (List.length pre) =? -1) with false
      by (symmetry; apply Z.eqb_neq; lia).
    destruct (tab_loop _).
    + apply spec_one; try reflexivity. located_at P.
    + now apply spec_one.
Qed.

(** *** The body check *)

Lemma from_first_split {A : Type} (f : A -> bool) (pre : list A) (x : A)
    (post : list A) :
  (forall y, In y pre -> f y = false) -> f x = true ->
  from_first f (pre ++ x :: post) = x :: post.
Proof.
  induction pre as [|y pre IH]; intros N M; cbn [app from_first].
  - now rewrite M.
  - rewrite (N y) by now left. apply IH; [|exact M]. intros z I. apply N. now right.
Qed.

Lemma take_while_all {A : Type} (f : A -> bool) (l : list A) :
  (forall y, In y l -> f y = true) -> take_while f l = l.
Proof.
  induction l as [|y l IH]; intros H; cbn [take_while]; [reflexivity|].
  rewrite (H y) by now left. f_equal. apply IH. intros z I. apply H. now right.
Qed.

Lemma take_while_split {A : Type} (f : A -> bool) (pre : list A) (x : A)
    (post : list A) :
  (forall y, In y pre -> f y = true) -> f x = false ->
  take_while f (pre ++ x :: post) = pre.
Proof.
  induction pre as [|y pre IH]; intros N M; cbn [app take_while].
  - now rewrite M.
  - rewrite (N y) by now left. f_equal. apply IH; [|exact M].
    intros z I. apply N. now right.
Qed.

Lemma map_snd_indexed (l : list string) :
  forall a, List.map snd (indexed_from a l) = l.
Proof. induction l as [|p l IH]; intros a; cbn [indexed_from List.map snd]; [reflexivity|]. now rewrite IH. Qed.

(** The loop of the body check runs over the body of the memorandum. *)
Lemma body_window (self : MemorandumValidator) (pre : list string) (p : string)
    (post : list string) :
  paragraphs self = (pre ++ p :: post)%list ->
  (forall q, In q pre -> holds subject_pattern q = false) ->
  holds subject_pattern p = true ->
  let s := Z.of_nat (List.length pre) in
  let sig_idx := _find_paragraph_index self signed_pattern s in
  List.map snd
    (range_paragraphs self (s + 1) (if sig_idx =? -1 then len self else sig_idx))
  = body_region (paragraphs self).
Proof.
  intros P N M s sig_idx.
  assert (R : body_region (paragraphs self)
              = if holds signed_pattern p then []
                else take_while (fun q => negb (holds signed_pattern q)) post).
  { unfold body_region. rewrite P. now rewrite from_first_split. }
  assert (P' : paragraphs self = ((pre ++ [p]) ++ post)%list)
    by (rewrite P, <- app_assoc; reflexivity).
  assert (L' : Z.of_nat (List.length (pre ++ [p])) = s + 1)
    by (rewrite length_app; cbn [List.length]; unfold s; lia).
  assert (W : forall stop,
             List.map snd (range_paragraphs self (s + 1) stop)
             = firstn (Z.to_nat (stop - (s + 1))) post).
  { intros stop. rewrite <- L'. rewrite (range_after self _ _ stop P').
    now rewrite map_snd_indexed. }
  rewrite W, R.
  assert (Hlen : len self = s + 1 + Z.of_nat (List.length post)).
  { unfold len. rewrite P, length_app. cbn [List.length]. unfold s. lia. }
  assert (F : sig_idx
              = if holds signed_pattern p then s
                else find_in signed_pattern (indexed_from (s + 1) post)).
  { unfold sig_idx, _find_paragraph_index, s. rewrite (range_after self pre _ _ P).
    rewrite firstn_all2.
    - cbn [indexed_from find_in]. unfold holds. reflexivity.
    - fold s. rewrite Hlen. cbn [List.length]. lia. }
  rewrite F. destruct (holds signed_pattern p) eqn:Hp.
  - replace (s =? -1) with false by (symmetry; apply Z.eqb_neq; unfold s; lia).
    replace (Z.to_nat (s - (s + 1))) with 0%nat by lia. reflexivity.
  - destruct (Locator.find_in_spec signed_pattern post (s + 1))
      as [[E A]|(pre2 & q & post2 & -> & A & B & E)]; [unfold s; lia| |]; rewrite E.
    + rewrite Z.eqb_refl, Hlen, firstn_all2 by lia.
      symmetry. apply take_while_all. intros y I.
      rewrite Forall_forall in A. unfold holds. now rewrite (A y I).
    + replace (s + 1 + Z.of_nat (List.length pre2) =? -1) with false
        by (symmetry; apply Z.eqb_neq; unfold s; lia).
      replace (Z.to_nat (s + 1 + Z.of_nat (List.length pre2) - (s + 1)))
        with (List.length pre2) by lia.
      rewrite firstn_app, Nat.sub_diag, firstn_all. cbn [firstn]. rewrite app_nil_r.
      symmetry. apply take_while_split.
      * intros y I. rewrite Forall_forall in A. unfold holds. now rewrite (A y I).
      * unfold holds. now rewrite B.
Qed.

Lemma collect_numbered_nil (l : list (Z * string)) :
  collect_numbered l = [] <-> existsb is_candidate (List.map snd l) = false.
Proof.
  induction l as [|[i p] l IH]; cbn [collect_numbered List.map snd existsb].
  - tauto.
  - unfold is_candidate at 1. destruct (re_match paragraph_pattern (Text.strip p)).
    + split; discriminate.
    + exact IH.
Qed.

Lemma collect_numbered_index (l : list (Z * string)) (n i : Z) :
  In (n, i) (collect_numbered l) -> exists p, In (i, p) l.
Proof.
  induction l as [|[j p] l IH]; cbn [collect_numbered]; [intros []|].
  destruct (re_match paragraph_pattern (Text.strip p)).
  - intros [E|H].
    + injection E as _ <-. exists p. now left.
    + destruct (IH H) as [q I]. exists q. now right.
  - intros H. destruct (IH H) as [q I]. exists q. now right.
Qed.

Lemma numbering_warnings_located (m : Z) (found : list (Z * Z)) :
  (forall n i, In (n, i) found -> 0 <= i < m) ->
  forall first,
    Forall (fun i => section i = "Body" /\ located m i)
      (numbering_warnings first found).
Proof.
  induction found as [|[n i] found IH]; intros B first.
  - constructor.
  - rewrite Numbering.numbering_warnings_cons. apply Forall_app. split.
    + destruct (n =? first); constructor; [|constructor]. split; [reflexivity|].
      unfold located. cbn [numbering_warning paragraph_number].
      specialize (B n i (or_introl eq_refl)). lia.
    + apply IH. intros n' i' I. apply (B n' i'). now right.
Qed.

Lemma warnings_not_critical (first : Z) (found : list (Z * Z)) :
  existsb is_critical (numbering_warnings first found) = false.
Proof.
  revert first. induction found as [|[n i] found IH]; intros first; [reflexivity|].
  rewrite Numbering.numbering_warnings_cons, existsb_app, IH.
  now destruct (n =? first).
Qed.

Lemma body_paragraphs_spec : check_spec "Body" body_ok _validate_body_paragraphs.
Proof.
  intros self. unfold _validate_body_paragraphs, body_ok.
  destruct (find_cases self subject_pattern)
    as [[H F]|(H & pre & p & post & P & N & M & F)]; rewrite F, H.
  - cbn [Z.eqb]. now apply spec_nil.
  - replace (Z.of_nat (List.length pre) =? -1) with false
      by (symmetry; apply Z.eqb_neq; lia).
    cbn [negb orb].
    pose proof (body_window self pre p post P N M) as W. cbv zeta in W.
    set (l := range_paragraphs self _ _) in *.
    assert (B : forall n i, In (n, i) (collect_numbered l) -> 0 <= i < len self).
    { intros n i I. apply collect_numbered_index in I. destruct I as [q I].
      apply range_paragraphs_bounds in I; lia. }
    rewrite <- W.
    destruct (collect_numbered l) as [|f found] eqn:C.
    + apply collect_numbered_nil in C. rewrite C.
      now apply spec_one.
    + assert (C' : existsb is_candidate (List.map snd l) = true).
      { destruct (existsb is_candidate (List.map snd l)) eqn:E; [reflexivity|].
        apply collect_numbered_nil in E. congruence. }
      rewrite C', Numbering.report_numbering_cons.
      eexists. split; [reflexivity|]. split.
      * apply Forall_app. split; [now apply numbering_warnings_located|].
        repeat constructor.
      * rewrite existsb_app, warnings_not_critical. reflexivity.
Qed.

End Gate.

(** ** A run on a loaded document, stage by stage *)

Module Pipeline.
Import Regex Validator Spec Frame Anchors Gate.

Lemma spec_at (sec : string) (ok : list string -> bool)
    (f : MemorandumValidator -> MemorandumValidator) (d : Document)
    (l0 : list ValidationIssue) :
  check_spec sec ok f ->
  exists l,
    f (emit l0 (loaded d)) = emit (l0 ++ l) (loaded d)
    /\ stage sec (ok (doc_paragraphs d)) (Z.of_nat (List.length (doc_paragraphs d))) l.
Proof.
  intros H. destruct (H (emit l0 (loaded d))) as (l & E & F & C).
  exists l. rewrite E, emit_emit. split; [reflexivity|]. split; assumption.
Qed.

Lemma passed_no_critical (l : list ValidationIssue) :
  (List.length (List.filter is_critical l) =? 0)%nat = negb (existsb is_critical l).
Proof.
  induction l as [|i l IH]; [reflexivity|]. cbn [List.filter existsb].
  destruct (is_critical i); [reflexivity | exact IH].
Qed.

(** With a document in place the margin check does not raise; what it
    appends is INFO, of section "Formatting", without paragraph number. *)
Lemma validate_formatting_loaded (self : MemorandumValidator) (d : Document) :
  document self = Some d ->
  exists l,
    _validate_formatting self = Some (emit l self)
    /\ Forall (fun i => section i = "Formatting" /\ severity i = INFO
                        /\ paragraph_number i = None) l.
Proof.
  intros D. unfold _validate_formatting. rewrite D.
  destruct (paragraphs self) as [|p ps].
  - exists []. split; [now rewrite emit_nil | constructor].
  - destruct (doc_sections d) as [|sec secs].
    + exists []. split; [now rewrite emit_nil | constructor].
    + rewrite Margins.check_margins_issues. eexists. split; [reflexivity|].
      unfold margin_issues.
      destruct (off_standard _); destruct (off_standard _); repeat constructor.
Qed.

(** The issues of a run on a loaded document: the contributions of the
    eight checks, in their order, and the verdict. *)
Lemma run_loaded (open_docx : string -> Opened) (self : MemorandumValidator)
    (path : string) (d : Document) :
  Text.endswith path ".docx" = true ->
  open_docx path = Loaded d ->
  let ps := doc_paragraphs d in
  let n := Z.of_nat (List.length ps) in
  exists lD lM lF lS lB lG lA lX,
    fst (validate_file open_docx self path)
    = (negb (existsb is_critical (lD ++ lM ++ lF ++ lS ++ lB ++ lG ++ lA ++ lX)),
       (lD ++ lM ++ lF ++ lS ++ lB ++ lG ++ lA ++ lX)%list)
    /\ stage "Date" (has_date ps) n lD
    /\ stage "Header" (has_anchor memorandum_for_pattern ps) n lM
    /\ stage "Header" (has_anchor from_pattern ps) n lF
    /\ stage "Header" (has_anchor subject_pattern ps) n lS
    /\ stage "Body" (body_ok ps) n lB
    /\ stage "Signature" (has_anchor signed_pattern ps) n lG
    /\ stage "Attachments" true n lA
    /\ Forall (fun i => section i = "Formatting" /\ severity i = INFO
                        /\ paragraph_number i = None) lX.
Proof.
  intros E O ps n. rewrite (Run.validate_file_loaded _ _ _ _ E O). unfold text_checks.
  replace (_validate_date (loaded d)) with (_validate_date (emit [] (loaded d)))
    by now rewrite emit_nil.
  destruct (spec_at _ _ _ d [] date_spec) as (lD & -> & SD).
  destruct (spec_at _ _ _ d ([] ++ lD) memorandum_for_spec) as (lM & -> & SM).
  destruct (spec_at _ _ _ d (([] ++ lD) ++ lM) from_line_spec) as (lF & -> & SF).
  destruct (spec_at _ _ _ d ((([] ++ lD) ++ lM) ++ lF) subject_line_spec)
    as (lS & -> & SS).
  destruct (spec_at _ _ _ d (((([] ++ lD) ++ lM) ++ lF) ++ lS) body_paragraphs_spec)
    as (lB & -> & SB).
  destruct (spec_at _ _ _ d ((((([] ++ lD) ++ lM) ++ lF) ++ lS) ++ lB)
              signature_block_spec) as (lG & -> & SG).
  destruct (spec_at _ _ _ d (((((([] ++ lD) ++ lM) ++ lF) ++ lS) ++ lB) ++ lG)
              attachments_spec) as (lA & -> & SA).
  cbn [app].
  destruct (validate_formatting_loaded
              (emit ((((((lD ++ lM) ++ lF) ++ lS) ++ lB) ++ lG) ++ lA) (loaded d)) d
              eq_refl) as (lX & -> & FX).
  exists lD, lM, lF, lS, lB, lG, lA, lX.
  cbn [fst issues emit loaded app]. rewrite passed_no_critical.
  split; [now rewrite <- !app_assoc|].
  repeat (split; [assumption|]). assumption.
Qed.


Lemma stage_located (sec : string) (ok : bool) (n : Z) (l : list ValidationIssue) :
  stage sec ok n l -> Forall (located n) l.
Proof. intros [F _]. eapply Forall_impl; [|exact F]. now intros i [_ H]. Qed.



End Pipeline.

(** ** The locator from any start, and the signature block *)

Module Search.
Import Regex Validator Spec Anchors.

Lemma range_to_end (self : MemorandumValidator) (start : Z) :
  range_paragraphs self start (len self)
  = indexed_from start (skipn (Z.to_nat start) (paragraphs self)).
Proof.
  unfold range_paragraphs. f_equal. apply firstn_all2.
  rewrite length_skipn. unfold len. lia.
Qed.

Lemma nth_from (self : MemorandumValidator) (start k : Z) :
  0 <= start <= k ->
  nth (Z.to_nat k) (paragraphs self) ""
  = nth (Z.to_nat (k - start)) (skipn (Z.to_nat start) (paragraphs self)) "".
Proof.
  intros H. rewrite Locator.nth_skipn_add. f_equal. lia.
Qed.

(** What [_find_paragraph_index] returns, for a start that is not
    negative. *)
Lemma find_from_spec (self : MemorandumValidator) (pattern : regex) (start : Z) :
  0 <= start ->
  let text k := nth (Z.to_nat k) (paragraphs self) "" in
  let r := _find_paragraph_index self pattern start in
  (r = -1 /\ forall k, start <= k < len self -> holds pattern (text k) = false)
  \/ (start <= r < len self
      /\ holds pattern (text r) = true
      /\ forall k, start <= k < r -> holds pattern (text k) = false).
Proof.
  intros S text r. unfold r, _find_paragraph_index. rewrite range_to_end.
  set (l := skipn (Z.to_nat start) (paragraphs self)).
  assert (L : Z.of_nat (List.length l) = Z.max 0 (len self - start)).
  { unfold l, len. rewrite length_skipn. lia. }
  destruct (Locator.find_in_spec pattern l start S)
    as [[E A]|(pre & p & post & P & A & M & E)]; rewrite E.
  - left. split; [reflexivity|]. intros k K. unfold text.
    rewrite (nth_from self start k) by lia. fold l.
    rewrite Forall_forall in A. apply A. apply nth_In. lia.
  - right.
    assert (Lp : Z.of_nat (List.length l)
                 = Z.of_nat (List.length pre) + 1 + Z.of_nat (List.length post)).
    { rewrite P, length_app. cbn [List.length]. lia. }
    split; [lia|]. split.
    + unfold text. rewrite (nth_from self start) by lia. fold l. rewrite P.
      replace (Z.to_nat (start + Z.of_nat (List.length pre) - start))
        with (List.length pre) by lia.
      now rewrite nth_middle.
    + intros k K. unfold text. rewrite (nth_from self start k) by lia. fold l.
      rewrite P, app_nth1 by lia.
      rewrite Forall_forall in A. apply A. apply nth_In. lia.
Qed.

Lemma name_loop_existsb (l : list (Z * string)) :
  name_loop l = existsb is_name_line (List.map snd l).
Proof.
  induction l as [|[i p] l IH]; cbn [name_loop List.map snd existsb]; [reflexivity|].
  unfold is_name_line at 1. now destruct (re_search signature_pattern (Text.strip p)).
Qed.

(** The loop of the signature check runs over the four paragraphs after
    the marker, or over those there are. *)
Lemma signature_window (self : MemorandumValidator) (pre : list string) (p : string)
    (post : list string) :
  paragraphs self = (pre ++ p :: post)%list ->
  let s := Z.of_nat (List.length pre) in
  List.map snd (range_paragraphs self (s + 1) (Z.min (s + 5) (len self)))
  = firstn 4 post.
Proof.
  intros P s.
  assert (P' : paragraphs self = ((pre ++ [p]) ++ post)%list)
    by (rewrite P, <- app_assoc; reflexivity).
  assert (L' : Z.of_nat (List.length (pre ++ [p])) = s + 1)
    by (rewrite length_app; cbn [List.length]; unfold s; lia).
  rewrite <- L', (range_after self _ _ _ P'), Gate.map_snd_indexed, L'.
  assert (Hlen : len self = s + 1 + Z.of_nat (List.length post)).
  { unfold len. rewrite P, length_app. cbn [List.length]. unfold s. lia. }
  rewrite Hlen.
  destruct (Z.min_spec (s + 5) (s + 1 + Z.of_nat (List.length post)))
    as [[C ->]|[C ->]].
  - f_equal. lia.
  - replace (Z.to_nat (s + 1 + Z.of_nat (List.length post) - (s + 1)))
      with (List.length post) by lia.
    rewrite firstn_all. symmetry. apply firstn_all2. lia.
Qed.

End Search.

(** ** The paths of [validate_file] on which the document does not open *)

Module Failures.
Import Regex Validator Spec Frame.

Lemma validate_file_not_found (open_docx : string -> Opened)
    (self : MemorandumValidator) (path : string) :
  Text.endswith path ".docx" = true ->
  open_docx path = FileNotFoundError ->
  validate_file open_docx self path =
    ((false, [not_found_issue path]),
     {| issues := [not_found_issue path]; document := document self;
        paragraphs := paragraphs self |}).
Proof.
  intros E O. unfold validate_file. rewrite E. cbn [negb]. rewrite O. reflexivity.
Qed.

Lemma validate_file_read_error (open_docx : string -> Opened)
    (self : MemorandumValidator) (path str_e : string) :
  Text.endswith path ".docx" = true ->
  open_docx path = OtherException str_e ->
  validate_file open_docx self path =
    ((false, [read_error_issue str_e]),
     {| issues := [read_error_issue str_e]; document := document self;
        paragraphs := paragraphs self |}).
Proof.
  intros E O. unfold validate_file. rewrite E. cbn [negb]. rewrite O. reflexivity.
Qed.

(** The five shapes of a call of [validate_file]. *)
Lemma validate_file_cases (open_docx : string -> Opened)
    (self : MemorandumValidator) (path : string) :
  (exists i, severity i = CRITICAL /\ paragraph_number i = None
             /\ validate_file open_docx self path =
                  ((false, [i]),
                   {| issues := [i]; document := document self;
                      paragraphs := paragraphs self |}))
  \/ (exists d, Text.endswith path ".docx" = true /\ open_docx path = Loaded d).
Proof.
  destruct (Text.endswith path ".docx") eqn:E.
  - destruct (open_docx path) as [d| |str_e] eqn:O.
    + right. now exists d.
    + left. exists (not_found_issue path). split; [reflexivity|].
      split; [reflexivity|]. now apply validate_file_not_found.
    + left. exists (read_error_issue str_e). split; [reflexivity|].
      split; [reflexivity|]. now apply validate_file_read_error.
  - left. exists file_issue. split; [reflexivity|].
    split; [reflexivity|]. now apply Run.validate_file_wrong_extension.
Qed.

(** The list that a call returns is [self.issues] as the call leaves it. *)
Lemma returned_is_state (open_docx : string -> Opened)
    (self : MemorandumValidator) (path : string) :
  issues (snd (validate_file open_docx self path))
  = snd (fst (validate_file open_docx self path)).
Proof.
  destruct (validate_file_cases open_docx self path) as [(i & _ & _ & ->)|(d & E & O)].
  - reflexivity.
  - rewrite (Run.validate_file_loaded _ _ _ _ E O).
    generalize (text_checks (loaded d)). intros s.
    now destruct (_validate_formatting s).
Qed.

(** The verdict of any call: no returned issue is CRITICAL. *)
Lemma verdict_any (open_docx : string -> Opened)
    (self : MemorandumValidator) (path : string) :
  fst (fst (validate_file open_docx self path))
  = negb (existsb is_critical (snd (fst (validate_file open_docx self path)))).
Proof.
  destruct (validate_file_cases open_docx self path) as [(i & C & _ & ->)|(d & E & O)].
  - cbn [fst snd existsb]. unfold is_critical. now rewrite C.
  - destruct (Pipeline.run_loaded open_docx self path d E O)
      as (lD & lM & lF & lS & lB & lG & lA & lX & -> & _).
    reflexivity.
Qed.

End Failures.

(** ** The report *)

Module Report.
Import Regex Validator Spec.

Lemma issue_line_is (i : ValidationIssue) : is_issue_line (issue_line i) = true.
Proof.
  unfold is_issue_line. apply Anchors.prefix_spec.
  exists (section i ++ "]" ++ para_info i ++ ": " ++ message i). reflexivity.
Qed.





Lemma in_block (line title : string) (g : list ValidationIssue) :
  is_issue_line line = false -> line <> rule_single -> line <> "" ->
  In line (report_block title g) <-> line = title /\ g <> [].
Proof.
  intros NI NR NE. unfold report_block. destruct g as [|i g].
  - split; [intros [] | intros [_ H]; congruence].
  - split.
    + intros [H|[H|H]]; [split; [congruence | discriminate] | congruence |].
      change (In line (List.map issue_line (i :: g) ++ [""])) in H.
      apply in_app_or in H. destruct H as [H|[H|[]]]; [|congruence].
      apply in_map_iff in H. destruct H as (x & <- & _).
      now rewrite issue_line_is in NI.
    + intros [-> _]. now left.
Qed.

(** Where the title of the first block and the line of the failed
    verdict stand in a report. *)
Lemma critical_title_iff (passed : bool) (l : list ValidationIssue) :
  In "CRITICAL ISSUES:" (report_lines passed l) <-> existsb is_critical l = true.
Proof.
  unfold report_lines. rewrite !in_app_iff.
  rewrite (in_block "CRITICAL ISSUES:" "CRITICAL ISSUES:") by (try reflexivity; discriminate).
  rewrite (in_block "CRITICAL ISSUES:" "WARNINGS:") by (try reflexivity; discriminate).
  rewrite (in_block "CRITICAL ISSUES:" "INFORMATION:") by (try reflexivity; discriminate).
  assert (F : List.filter (has_severity CRITICAL) l <> [] <-> existsb is_critical l = true).
  { induction l as [|i l IH]; cbn [List.filter existsb].
    - split; [congruence | discriminate].
    - change (has_severity CRITICAL i) with (is_critical i).
      destruct (is_critical i); [split; [reflexivity | discriminate] | exact IH]. }
  rewrite <- F. split.
  - intros [[[[[[H|H]|H]|H]|H]|H]|H]; try (now destruct H as [_ H]);
      try (destruct H as [H _]; discriminate H).
    + destruct H as [H|[H|[H|[H|[]]]]]; discriminate H.
    + destruct passed; destruct H as [H|[]]; discriminate H.
    + destruct H as [H|[]]; discriminate H.
    + destruct H as [H|[]]; discriminate H.
  - intros H. left. left. left. right. auto.
Qed.

Lemma failed_line_iff (passed : bool) (l : list ValidationIssue) :
  In failed_line (report_lines passed l) <-> passed = false.
Proof.
  unfold report_lines. rewrite !in_app_iff.
  rewrite (in_block failed_line "CRITICAL ISSUES:") by (try reflexivity; discriminate).
  rewrite (in_block failed_line "WARNINGS:") by (try reflexivity; discriminate).
  rewrite (in_block failed_line "INFORMATION:") by (try reflexivity; discriminate).
  split.
  - intros [[[[[[H|H]|H]|H]|H]|H]|H];
      try (destruct H as [H _]; discriminate H).
    + destruct H as [H|[H|[H|[H|[]]]]]; discriminate H.
    + destruct passed; [destruct H as [H|[]]; discriminate H | reflexivity].
    + destruct H as [H|[]]; discriminate H.
    + destruct H as [H|[]]; discriminate H.
  - intros ->. left. left. left. left. left. right. now left.
Qed.

End Report.

(** ** The checks on the text do not read [self.document] *)

Module Uniform.
Import Regex Validator Spec Frame.

Lemma with_document_emit (x : option Document) (l : list ValidationIssue)
    (self : MemorandumValidator) :
  emit l (with_document x self) = with_document x (emit l self).
Proof. reflexivity. Qed.













End Uniform.

(** ** Sequences of numbers without a gap *)

Module Sequence.
Import Regex Validator Spec Frame.

Lemma warnings_nil_iff (found : list (Z * Z)) :
  forall first,
    numbering_warnings first found = []
    <-> List.map fst found = counting_from first (List.length found).
Proof.
  induction found as [|[n i] found IH]; intros first.
  - split; reflexivity.
  - rewrite Numbering.numbering_warnings_cons.
    cbn [List.map fst List.length counting_from].
    destruct (Z.eqb_spec n first) as [->|N].
    + cbn [app]. rewrite IH. split; [intros ->; reflexivity | now intros [= ->]].
    + split; [discriminate | intros [= H _]; contradiction].
Qed.

Lemma emit_inj (l1 l2 : list ValidationIssue) (self : MemorandumValidator) :
  emit l1 self = emit l2 self -> l1 = l2.
Proof.
  intros H. apply (f_equal issues) in H. cbn [issues emit] in H.
  now apply app_inv_head in H.
Qed.

Lemma report_clean_iff (self : MemorandumValidator) (f : Z * Z)
    (found : list (Z * Z)) :
  report_numbering self (f :: found)
  = append_issue (count_info (List.length (f :: found))) self
  <-> List.map fst (f :: found) = counting_from 1 (List.length (f :: found)).
Proof.
  rewrite Numbering.report_numbering_cons, <- warnings_nil_iff.
  rewrite append_issue_emit. split.
  - intros H. apply emit_inj in H.
    change [count_info (List.length (f :: found))]
      with ([] ++ [count_info (List.length (f :: found))])%list in H.
    now apply app_inv_tail in H.
  - now intros ->.
Qed.

End Sequence.

(** ** Counting the candidates of the body *)

Module BodyCount.
Import Regex Validator Spec Frame Anchors.




(** The attachments check appends one issue, which is not CRITICAL. *)
Lemma attachments_one (self : MemorandumValidator) :
  exists i,
    _validate_attachments self = append_issue i self
    /\ section i = "Attachments" /\ severity i <> CRITICAL.
Proof.
  unfold _validate_attachments. destruct (_ =? -1).
  - eexists. split; [reflexivity|]. split; [reflexivity | discriminate].
  - destruct (tab_loop _); eexists; (split; [reflexivity|]);
      (split; [reflexivity | discriminate]).
Qed.

End BodyCount.

(** * The properties of the specification *)

Import Regex Validator.

(** C1. Whatever the path and whatever opening the document does, the
    verdict returned by [validate_file] is [true] exactly when no issue of
    the returned list is CRITICAL; the issues of the other two severities
    play no part. *)
Theorem C1_passed_iff_no_critical (open_docx : string -> Opened)
    (self : MemorandumValidator) (file_path : string) :
  let '(passed, found) := fst (validate_file open_docx self file_path) in
  passed = true <-> Forall (fun i => severity i <> CRITICAL) found.
Proof.
  destruct (Text.endswith file_path ".docx") eqn:E.
  - destruct (open_docx file_path) as [d| |msg] eqn:O.
    + rewrite (Run.validate_file_loaded _ _ _ _ E O).
      generalize (text_checks (loaded d)). intros s.
      destruct (_validate_formatting s) as [self'|]; cbn [fst].
      * apply Run.no_critical_iff.
      * split; [discriminate|]. intros H. now apply Run.critical_last in H.
    + destruct (Run.validate_file_raised open_docx self file_path E) as (m & ->).
      { intros d. rewrite O. discriminate. }
      cbn [fst]. split; [discriminate|]. intros H. now apply (Run.critical_last []) in H.
    + destruct (Run.validate_file_raised open_docx self file_path E) as (m & ->).
      { intros d. rewrite O. discriminate. }
      cbn [fst]. split; [discriminate|]. intros H. now apply (Run.critical_last []) in H.
  - rewrite (Run.validate_file_wrong_extension _ _ _ E).
    cbn [fst]. split; [discriminate|]. intros H. now apply (Run.critical_last []) in H.
Qed.






(** C5. The scan of the attachments section.  When the anchor is found
    at [a], the check reports on the loop over the paragraphs from
    [a + 1] to the end of the document: a WARNING when the loop collects
    nothing and otherwise an INFO with the number of tabs.  The loop
    collects, from the trimmed texts it visits, the tabs among the
    longest run of texts that are tabs or empty: an empty text does not
    end the run, the first non-empty text that is no tab does, and
    nothing after it is collected; a tab is a text that starts with
    [Tab], white space and digits.  On "Tab 1", "", "Tab 2", "Notes",
    "Tab 3" the loop collects "Tab 1" and "Tab 2" and the check appends
    the INFO for 2 tabs. *)
Theorem C5_attachment_tabs :
  (forall self,
      let a := _find_paragraph_index self attachments_pattern 0 in
      a <> -1 ->
      let found_tabs :=
        Spec.collected_tabs
          (Spec.trimmed (range_paragraphs self (a + 1) (len self))) in
      _validate_attachments self =
        match found_tabs with
        | [] =>
            append_issue
              (mkIssue WARNING "Attachments"
                 "Attachments section found but no tabs listed" (Some (a + 1))) self
        | _ =>
            append_issue
              (mkIssue INFO "Attachments"
                 ("Found " ++ Text.str_of_int (Z.of_nat (List.length found_tabs))
                  ++ " attachment tab(s)") None) self
        end)
  /\ (forall text, Spec.is_tab text = true <-> Spec.tab_shaped text)
  /\ (let d := mkDocument
                 ["Attachments:"; "Tab 1"; ""; "Tab 2"; "Notes"; "Tab 3"] [] in
      tab_loop (range_paragraphs (loaded d) 1 6) = ["Tab 1"; "Tab 2"]
      /\ _validate_attachments (loaded d) =
           emit [mkIssue INFO "Attachments" "Found 2 attachment tab(s)" None]
             (loaded d)).
Proof.
  split; [|split; [exact Tabs.is_tab_shaped|]].
  - intros self a Ha found_tabs. unfold _validate_attachments. fold a.
    apply Z.eqb_neq in Ha. rewrite Ha. rewrite Tabs.tab_loop_collected.
    reflexivity.
  - split; vm_compute; reflexivity.
Qed.

Lemma C5_attachment_tabs_witness :
  let self := loaded (mkDocument
                        ["Signed"; "ATTACHMENT: list"; " Tab 1 Roster"; "   ";
                         "Tab  22"; "Tab A"; "Tab 3"] []) in
  _find_paragraph_index self attachments_pattern 0 <> -1
  /\ _validate_attachments self =
       append_issue
         (mkIssue INFO "Attachments" "Found 2 attachment tab(s)" None) self.
Proof.
  intros self.
  assert (H : _find_paragraph_index self attachments_pattern 0 <> -1)
    by (vm_compute; discriminate).
  split; [exact H|].
  exact (proj1 C5_attachment_tabs self H).
Defined.

(** C6, as the code has it.  Let the first paragraph that holds the
    anchor FROM: (SUBJECT:), in any case and at any place of the line,
    be [p], after the paragraphs [pre].  The check appends no issue when
    the trimmed text of [p] is the anchor in capitals at its very start,
    then white space, then more text; in every other case it appends one
    WARNING, at the paragraph number of [p]. *)
Theorem C6_anchor_line_content (self : MemorandumValidator)
    (pre : list string) (p : string) (post : list string) :
  paragraphs self = (pre ++ p :: post)%list ->
  ((forall q, In q pre -> re_search (ignorecase from_pattern) q = false) ->
   re_search (ignorecase from_pattern) p = true ->
   (Spec.anchored_content "FROM:" (Text.strip p) ->
    _validate_from_line self = self)
   /\ (~ Spec.anchored_content "FROM:" (Text.strip p) ->
       _validate_from_line self =
         append_issue (Spec.from_warning (Z.of_nat (List.length pre))) self))
  /\ ((forall q, In q pre -> re_search (ignorecase subject_pattern) q = false) ->
      re_search (ignorecase subject_pattern) p = true ->
      (Spec.anchored_content "SUBJECT:" (Text.strip p) ->
       _validate_subject_line self = self)
      /\ (~ Spec.anchored_content "SUBJECT:" (Text.strip p) ->
          _validate_subject_line self =
            append_issue (Spec.subject_warning (Z.of_nat (List.length pre))) self)).
Proof.
  intros P. split; intros H M.
  - unfold _validate_from_line.
    rewrite (Locator.find_first self _ pre p post P H M).
    rewrite (Locator.get_text_at self pre p post P).
    replace (Z.of_nat (List.length pre) =? -1) with false
      by (symmetry; apply Z.eqb_neq; lia).
    pose proof (Headers.anchor_line_spec "FROM:" (Text.strip p)
                  (TextFacts.strip_no_trailing_space p)) as S.
    fold from_line_pattern in S.
    destruct (re_match from_line_pattern (Text.strip p)); cbn [negb]; split; intros A.
    + reflexivity.
    + exfalso. apply A. now apply S.
    + apply S in A. discriminate.
    + reflexivity.
  - unfold _validate_subject_line.
    rewrite (Locator.find_first self _ pre p post P H M).
    rewrite (Locator.get_text_at self pre p post P).
    replace (Z.of_nat (List.length pre) =? -1) with false
      by (symmetry; apply Z.eqb_neq; lia).
    pose proof (Headers.anchor_line_spec "SUBJECT:" (Text.strip p)
                  (TextFacts.strip_no_trailing_space p)) as S.
    fold subject_line_pattern in S.
    destruct (re_match subject_line_pattern (Text.strip p)); cbn [negb]; split; intros A.
    + reflexivity.
    + exfalso. apply A. now apply S.
    + apply S in A. discriminate.
    + reflexivity.
Qed.

Lemma C6_anchor_line_content_witness :
  let self := loaded (mkDocument
                        ["12 March 2025"; "  FROM:  AFROTC/CC "; "SUBJECT: Leave"] []) in
  paragraphs self = (["12 March 2025"] ++ "  FROM:  AFROTC/CC " :: ["SUBJECT: Leave"])%list
  /\ (forall q, In q ["12 March 2025"] -> re_search (ignorecase from_pattern) q = false)
  /\ re_search (ignorecase from_pattern) "  FROM:  AFROTC/CC " = true
  /\ Spec.anchored_content "FROM:" (Text.strip "  FROM:  AFROTC/CC ")
  /\ _validate_from_line self = self.
Proof.
  intros self.
  assert (H : forall q, In q ["12 March 2025"] ->
                        re_search (ignorecase from_pattern) q = false).
  { intros q [<-|[]]. vm_compute. reflexivity. }
  assert (M : re_search (ignorecase from_pattern) "  FROM:  AFROTC/CC " = true)
    by (vm_compute; reflexivity).
  assert (A : Spec.anchored_content "FROM:" (Text.strip "  FROM:  AFROTC/CC ")).
  { exists "  ", "AFROTC/CC". repeat split; try discriminate. }
  split; [reflexivity|]. split; [exact H|]. split; [exact M|]. split; [exact A|].
  exact (proj1 (proj1 (C6_anchor_line_content self ["12 March 2025"]
                         "  FROM:  AFROTC/CC " ["SUBJECT: Leave"] eq_refl) H M) A).
Defined.

(** C6, as stated, fails: in these two documents the anchor is located
    and is followed by white space and text, and yet the check appends
    its WARNING, in the first because the anchor is not at the start of
    the line and in the second because it is not in capitals. *)
Lemma C6_counterexample :
  let self1 := loaded (mkDocument ["Memo FROM: AFROTC/CC"] []) in
  let self2 := loaded (mkDocument ["Subject: Leave policy"] []) in
  (_find_paragraph_index self1 from_pattern 0 = 0
   /\ Spec.followed_by_content "FROM:" "Memo FROM: AFROTC/CC"
   /\ _validate_from_line self1 = append_issue (Spec.from_warning 0) self1)
  /\ (_find_paragraph_index self2 subject_pattern 0 = 0
      /\ Spec.followed_by_content "Subject:" "Subject: Leave policy"
      /\ _validate_subject_line self2 = append_issue (Spec.subject_warning 0) self2).
Proof.
  intros self1 self2. split; split; [|split| |split]; try (vm_compute; reflexivity).
  - exists "Memo ", " ", "A"%char, "FROTC/CC". repeat split; discriminate.
  - exists "", " ", "L"%char, "eave policy". repeat split; discriminate.
Qed.



(** C8. A path that does not end in [.docx] gives the failed verdict with
    the single CRITICAL issue of section "File"; the result does not
    depend on what opening the path would do, and [self.document] and
    [self.paragraphs] are left as they were: nothing is parsed and no
    check runs. *)
Theorem C8_wrong_extension (open_docx : string -> Opened)
    (self : MemorandumValidator) (file_path : string) :
  (~ exists stem, file_path = stem ++ ".docx") ->
  validate_file open_docx self file_path =
    ((false, [file_issue]),
     {| issues := [file_issue];
        document := document self;
        paragraphs := paragraphs self |}).
Proof.
  intros H.
  destruct (Text.endswith file_path ".docx") eqn:E.
  - exfalso. apply H. now apply TextFacts.endswith_spec.
  - now rewrite (Run.validate_file_wrong_extension _ _ _ E).
Qed.

Lemma C8_wrong_extension_witness :
  (~ exists stem, "memo.DOCX" = stem ++ ".docx")
  /\ validate_file (fun _ => Loaded (mkDocument ["12 March 2025"] [])) init "memo.DOCX"
     = ((false, [file_issue]),
        {| issues := [file_issue]; document := None; paragraphs := [] |}).
Proof.
  assert (H : ~ exists stem, "memo.DOCX" = stem ++ ".docx").
  { intros H. apply TextFacts.endswith_spec in H. discriminate H. }
  split; [exact H|].
  exact (C8_wrong_extension
           (fun _ => Loaded (mkDocument ["12 March 2025"] [])) init "memo.DOCX" H).
Defined.

(** C9. When no paragraph holds the SUBJECT: anchor, the body check
    returns [self] unchanged, and no issue of a whole run on such a
    document is of section "Body". *)
Theorem C9_no_subject_no_body_issue (d : Document) :
  (forall p, In p (doc_paragraphs d) ->
             re_search (ignorecase subject_pattern) p = false) ->
  (forall self, paragraphs self = doc_paragraphs d ->
                _validate_body_paragraphs self = self)
  /\ (forall open_docx self file_path,
         open_docx file_path = Loaded d ->
         Forall (fun i => section i <> "Body")
           (snd (fst (validate_file open_docx self file_path)))).
Proof.
  intros H.
  assert (B : forall self, paragraphs self = doc_paragraphs d ->
                           _validate_body_paragraphs self = self).
  { intros self P. unfold _validate_body_paragraphs.
    rewrite Locator.find_none; [reflexivity|]. now rewrite P. }
  split; [exact B|].
  intros open_docx self file_path O.
  destruct (Text.endswith file_path ".docx") eqn:E.
  - destruct (Run.formatting_stage _ self _ _ E O) as (l7 & -> & F7).
    unfold text_checks.
    destruct (Run.header_stage d "Body") as (l4 & -> & F4); [discriminate..|].
    rewrite B by reflexivity.
    destruct (Frame.emits_in_other "Signature" "Body" _
                Frame.validate_signature_block_emits ltac:(discriminate)
                (emit l4 (loaded d))) as (l5 & -> & F5).
    rewrite Frame.emit_emit.
    destruct (Frame.emits_in_other "Attachments" "Body" _
                Frame.validate_attachments_emits ltac:(discriminate)
                (emit (l4 ++ l5) (loaded d))) as (l6 & -> & F6).
    rewrite Frame.emit_emit. cbn [issues emit loaded app].
    repeat (apply Forall_app; split); try assumption.
    eapply Forall_impl; [|exact F7]. intros i [Hi|Hi]; rewrite Hi; discriminate.
  - rewrite (Run.validate_file_wrong_extension _ _ _ E).
    cbn [fst snd]. repeat constructor. discriminate.
Qed.

Lemma C9_no_subject_no_body_issue_witness :
  let d := mkDocument ["12 March 2025"; "1. First"; "//SIGNED//"] [] in
  (forall p, In p (doc_paragraphs d) ->
             re_search (ignorecase subject_pattern) p = false)
  /\ _validate_body_paragraphs (loaded d) = loaded d
  /\ Forall (fun i => section i <> "Body")
       (snd (fst (validate_file (fun _ => Loaded d) init "memo.docx"))).
Proof.
  intros d.
  assert (H : forall p, In p (doc_paragraphs d) ->
                        re_search (ignorecase subject_pattern) p = false).
  { intros p [<-|[<-|[<-|[]]]]; vm_compute; reflexivity. }
  split; [exact H|]. split.
  - exact (proj1 (C9_no_subject_no_body_issue d H) (loaded d) eq_refl).
  - exact (proj2 (C9_no_subject_no_body_issue d H) (fun _ => Loaded d) init
             "memo.docx" eq_refl).
Defined.

(** C10. A document that opens with no paragraph gives six issues, in
    this order: the empty-document CRITICAL of the date check, one
    CRITICAL for each of the three header anchors, the CRITICAL for the
    missing marker, and the INFO of the attachments check.  The body and
    margin checks add nothing, whatever the sections of the document,
    and the verdict is failed. *)
Theorem C10_empty_document (open_docx : string -> Opened)
    (self : MemorandumValidator) (file_path : string) (secs : list DocSection) :
  (exists stem, file_path = stem ++ ".docx") ->
  open_docx file_path = Loaded (mkDocument [] secs) ->
  fst (validate_file open_docx self file_path) =
    (false,
     [ mkIssue CRITICAL "Date" "Document is empty" None;
       mkIssue CRITICAL "Header" "Missing 'MEMORANDUM FOR' line" None;
       mkIssue CRITICAL "Header" "Missing 'FROM:' line" None;
       mkIssue CRITICAL "Header" "Missing 'SUBJECT:' line" None;
       mkIssue CRITICAL "Signature" "Missing '//SIGNED//' marker in signature block" None;
       mkIssue INFO "Attachments" "No attachments section found (optional)" None ]).
Proof.
  intros E O. apply TextFacts.endswith_spec in E.
  rewrite (Run.validate_file_loaded _ _ _ _ E O).
  vm_compute. reflexivity.
Qed.

Lemma C10_empty_document_witness :
  (exists stem, "blank.docx" = stem ++ ".docx")
  /\ fst (validate_file
            (fun _ => Loaded (mkDocument [] [mkSection (Some 0) None (Some 457200) None]))
            init "blank.docx") =
     (false,
      [ mkIssue CRITICAL "Date" "Document is empty" None;
        mkIssue CRITICAL "Header" "Missing 'MEMORANDUM FOR' line" None;
        mkIssue CRITICAL "Header" "Missing 'FROM:' line" None;
        mkIssue CRITICAL "Header" "Missing 'SUBJECT:' line" None;
        mkIssue CRITICAL "Signature" "Missing '//SIGNED//' marker in signature block" None;
        mkIssue INFO "Attachments" "No attachments section found (optional)" None ]).
Proof.
  assert (H : exists stem, "blank.docx" = stem ++ ".docx") by (exists "blank"; reflexivity).
  split; [exact H|].
  exact (C10_empty_document _ init "blank.docx" _ H eq_refl).
Defined.

(** * Further properties of the code *)





(** X3. Every paragraph number that a run reports is the number of a
    paragraph of the document: an issue of a run on a document that
    opens carries no paragraph number, or one between 1 and the number
    of paragraphs. *)
Theorem X3_paragraph_numbers_in_document (open_docx : string -> Opened)
    (self : MemorandumValidator) (file_path : string) (d : Document) :
  (exists stem, file_path = stem ++ ".docx") ->
  open_docx file_path = Loaded d ->
  Forall (Spec.located (Z.of_nat (List.length (doc_paragraphs d))))
    (snd (fst (validate_file open_docx self file_path))).
Proof.
  intros E O. apply TextFacts.endswith_spec in E.
  destruct (Pipeline.run_loaded open_docx self file_path d E O)
    as (lD & lM & lF & lS & lB & lG & lA & lX & -> &
        SD & SM & SF & SS & SB & SG & SA & FX).
  cbn [fst snd].
  repeat (apply Forall_app; split);
    try (eapply Pipeline.stage_located; eassumption).
  eapply Forall_impl; [|exact FX]. intros i (_ & _ & H).
  unfold Spec.located. now rewrite H.
Qed.

Lemma X3_paragraph_numbers_in_document_witness :
  let d := mkDocument
             ["32 March 2025"; "For the record: MEMORANDUM FOR RECORD"; "FROM:";
              "SUBJECT:"; "2. Second"; "4. Fourth"; "//SIGNED//"; "Attachment:"] [] in
  (exists stem, "m.docx" = stem ++ ".docx")
  /\ Forall (Spec.located 8)
       (snd (fst (validate_file (fun _ => Loaded d) init "m.docx"))).
Proof.
  intros d.
  assert (E : exists stem, "m.docx" = stem ++ ".docx") by (exists "m"; reflexivity).
  split; [exact E|].
  exact (X3_paragraph_numbers_in_document (fun _ => Loaded d) init "m.docx" d E eq_refl).
Defined.

(** X4. The locator, from a start that is not negative, returns either
    the sentinel -1, and then no paragraph from the start on holds the
    pattern, or the index of a paragraph at or after the start that
    holds the pattern, without regard to case and at any place of its
    text, and then no paragraph between the start and it does. *)
Theorem X4_find_paragraph_index (self : MemorandumValidator) (pattern : regex)
    (start : Z) :
  0 <= start ->
  let text k := nth (Z.to_nat k) (paragraphs self) "" in
  let r := _find_paragraph_index self pattern start in
  (r = -1 /\ forall k, start <= k < len self -> Spec.holds pattern (text k) = false)
  \/ (start <= r < len self
      /\ Spec.holds pattern (text r) = true
      /\ forall k, start <= k < r -> Spec.holds pattern (text k) = false).
Proof.
  exact (Search.find_from_spec self pattern start).
Qed.

Lemma X4_find_paragraph_index_witness :
  let self := loaded (mkDocument
                        ["Subject: a"; "b"; "Re: SUBJECT: c"; "subject: d"] []) in
  0 <= 1
  /\ _find_paragraph_index self subject_pattern 1 = 2
  /\ ((_find_paragraph_index self subject_pattern 1 = -1
       /\ forall k, 1 <= k < len self ->
            Spec.holds subject_pattern (nth (Z.to_nat k) (paragraphs self) "") = false)
      \/ (1 <= _find_paragraph_index self subject_pattern 1 < len self
          /\ Spec.holds subject_pattern
               (nth (Z.to_nat (_find_paragraph_index self subject_pattern 1))
                  (paragraphs self) "") = true
          /\ forall k, 1 <= k < _find_paragraph_index self subject_pattern 1 ->
               Spec.holds subject_pattern (nth (Z.to_nat k) (paragraphs self) "")
               = false)).
Proof.
  intros self. assert (H : 0 <= 1) by lia.
  split; [exact H|]. split; [vm_compute; reflexivity|].
  exact (X4_find_paragraph_index self subject_pattern 1 H).
Defined.

(** X5. [_get_text_by_index] is total: an index below 0 or not below
    the number of paragraphs gives the empty text, any other index the
    trimmed text of its paragraph; in both cases the result is a trimmed
    text, which trimming leaves as it is. *)
Theorem X5_get_text_by_index (self : MemorandumValidator) (index : Z) :
  (index < 0 \/ len self <= index -> _get_text_by_index self index = "")
  /\ (0 <= index < len self ->
      _get_text_by_index self index
      = Text.strip (nth (Z.to_nat index) (paragraphs self) ""))
  /\ Text.strip (_get_text_by_index self index) = _get_text_by_index self index.
Proof.
  unfold _get_text_by_index.
  destruct (Z.leb_spec 0 index) as [A|A]; destruct (Z.ltb_spec index (len self)) as [B|B];
    cbn [andb]; repeat split; try reflexivity; try lia;
    try (intros; lia); apply Anchors.strip_idempotent.
Qed.

(** X6. The check of the MEMORANDUM FOR line.  When no paragraph holds
    the anchor the check appends its CRITICAL.  Otherwise the first
    paragraph [p] that holds it, in any case and at any place, decides:
    nothing is appended when the trimmed text of [p] starts with the
    anchor in capitals, and one WARNING at the paragraph number of [p]
    when it does not. *)
Theorem X6_memorandum_for_line (self : MemorandumValidator) :
  (Spec.has_anchor memorandum_for_pattern (paragraphs self) = false ->
   _validate_memorandum_for self =
     append_issue (mkIssue CRITICAL "Header" "Missing 'MEMORANDUM FOR' line" None) self)
  /\ (forall pre p post,
         paragraphs self = (pre ++ p :: post)%list ->
         (forall q, In q pre -> Spec.holds memorandum_for_pattern q = false) ->
         Spec.holds memorandum_for_pattern p = true ->
         ((exists rest, Text.strip p = "MEMORANDUM FOR" ++ rest) ->
          _validate_memorandum_for self = self)
         /\ (~ (exists rest, Text.strip p = "MEMORANDUM FOR" ++ rest) ->
             _validate_memorandum_for self =
               append_issue
                 (mkIssue WARNING "Header"
                    "'MEMORANDUM FOR' should be at the start of the line"
                    (Some (Z.of_nat (List.length pre) + 1))) self)).
Proof.
  split.
  - intros H. unfold _validate_memorandum_for.
    destruct (Anchors.find_cases self memorandum_for_pattern)
      as [[_ F]|(H' & _)]; [now rewrite F | congruence].
  - intros pre p post P N M. unfold _validate_memorandum_for.
    rewrite (Locator.find_first self _ pre p post P N M).
    rewrite (Locator.get_text_at self pre p post P).
    replace (Z.of_nat (List.length pre) =? -1) with false
      by (symmetry; apply Z.eqb_neq; lia).
    unfold Text.startswith.
    pose proof (Anchors.prefix_spec "MEMORANDUM FOR" (Text.strip p)) as S.
    destruct (String.prefix "MEMORANDUM FOR" (Text.strip p)); cbn [negb]; split; intros A.
    + reflexivity.
    + exfalso. apply A. now apply S.
    + apply S in A. discriminate.
    + reflexivity.
Qed.

Lemma X6_memorandum_for_line_witness :
  let self := loaded (mkDocument ["12 March 2025"; "Memorandum for record"] []) in
  paragraphs self = (["12 March 2025"] ++ "Memorandum for record" :: [])%list
  /\ (forall q, In q ["12 March 2025"] ->
                Spec.holds memorandum_for_pattern q = false)
  /\ Spec.holds memorandum_for_pattern "Memorandum for record" = true
  /\ ~ (exists rest, Text.strip "Memorandum for record" = "MEMORANDUM FOR" ++ rest)
  /\ _validate_memorandum_for self =
       append_issue
         (mkIssue WARNING "Header"
            "'MEMORANDUM FOR' should be at the start of the line" (Some 2)) self.
Proof.
  intros self.
  assert (N : forall q, In q ["12 March 2025"] ->
                        Spec.holds memorandum_for_pattern q = false).
  { intros q [<-|[]]. vm_compute. reflexivity. }
  assert (M : Spec.holds memorandum_for_pattern "Memorandum for record" = true)
    by (vm_compute; reflexivity).
  assert (A : ~ (exists rest,
                    Text.strip "Memorandum for record" = "MEMORANDUM FOR" ++ rest)).
  { intros [rest H]. vm_compute in H. discriminate H. }
  split; [reflexivity|]. split; [exact N|]. split; [exact M|]. split; [exact A|].
  exact (proj2 (proj2 (X6_memorandum_for_line self) ["12 March 2025"]
                  "Memorandum for record" [] eq_refl N M) A).
Defined.

(** X7. The signature check, when the marker is found.  Let [p] be the
    first paragraph that holds the marker and [post] the paragraphs
    after it.  Only the first four paragraphs of [post] are looked at:
    nothing is appended when one of them holds a name, a rank and a
    branch, and one WARNING at the paragraph number of [p] otherwise,
    also when a name line comes fifth or later. *)
Theorem X7_signature_block_window (self : MemorandumValidator)
    (pre : list string) (p : string) (post : list string) :
  paragraphs self = (pre ++ p :: post)%list ->
  (forall q, In q pre -> Spec.holds signed_pattern q = false) ->
  Spec.holds signed_pattern p = true ->
  _validate_signature_block self =
    if existsb Spec.is_name_line (firstn 4 post) then self
    else append_issue
           (mkIssue WARNING "Signature"
              "Signature block may be incomplete. Expected format: 'Name, Rank, Branch'"
              (Some (Z.of_nat (List.length pre) + 1))) self.
Proof.
  intros P N M. unfold _validate_signature_block.
  rewrite (Locator.find_first self _ pre p post P N M).
  replace (Z.of_nat (List.length pre) =? -1) with false
    by (symmetry; apply Z.eqb_neq; lia).
  rewrite Search.name_loop_existsb, (Search.signature_window self pre p post P).
  now destruct (existsb Spec.is_name_line (firstn 4 post)).
Qed.

Lemma X7_signature_block_window_witness :
  let self := loaded (mkDocument
                        ["//SIGNED//"; ""; ""; ""; ""; "Snuff A. Brown, Colonel, USAF"]
                        []) in
  paragraphs self
  = ([] ++ "//SIGNED//" :: [""; ""; ""; ""; "Snuff A. Brown, Colonel, USAF"])%list
  /\ (forall q, In q [] -> Spec.holds signed_pattern q = false)
  /\ Spec.holds signed_pattern "//SIGNED//" = true
  /\ Spec.is_name_line "Snuff A. Brown, Colonel, USAF" = true
  /\ _validate_signature_block self =
       append_issue
         (mkIssue WARNING "Signature"
            "Signature block may be incomplete. Expected format: 'Name, Rank, Branch'"
            (Some 1)) self.
Proof.
  intros self.
  assert (N : forall q : string, In q [] -> Spec.holds signed_pattern q = false)
    by (intros q []).
  assert (M : Spec.holds signed_pattern "//SIGNED//" = true) by (vm_compute; reflexivity).
  split; [reflexivity|]. split; [exact N|]. split; [exact M|].
  split; [vm_compute; reflexivity|].
  exact (X7_signature_block_window self [] "//SIGNED//"
           [""; ""; ""; ""; "Snuff A. Brown, Colonel, USAF"] eq_refl N M).
Defined.

(** X8. The attachments check always appends exactly one issue, of
    section "Attachments" and never CRITICAL: the section is optional
    and cannot fail a document.  The issue is the INFO for the absent
    section exactly when no paragraph holds the anchor. *)
Theorem X8_attachments_one_issue (self : MemorandumValidator) :
  exists i,
    _validate_attachments self = append_issue i self
    /\ section i = "Attachments"
    /\ severity i <> CRITICAL
    /\ (i = Spec.optional_attachments_info
        <-> Spec.has_anchor attachments_pattern (paragraphs self) = false).
Proof.
  unfold _validate_attachments.
  destruct (Anchors.find_cases self attachments_pattern)
    as [[H F]|(H & pre & p & post & P & N & M & F)]; rewrite F, H.
  - eexists. split; [reflexivity|]. split; [reflexivity|].
    split; [discriminate|]. split; reflexivity.
  - replace (Z.of_nat (List.length pre) =? -1) with false
      by (symmetry; apply Z.eqb_neq; lia).
    destruct (tab_loop _); eexists; (split; [reflexivity|]); (split; [reflexivity|]);
      (split; [discriminate|]); split; discriminate.
Qed.

(** X9. The body check on a non-empty list of candidates appends the
    count INFO alone, with no WARNING, exactly when the numbers of the
    candidates are 1, 2, 3, ... in document order without a gap. *)
Theorem X9_no_warning_iff_sequential (self : MemorandumValidator) (f : Z * Z)
    (found : list (Z * Z)) :
  report_numbering self (f :: found)
  = append_issue (Spec.count_info (List.length (f :: found))) self
  <-> List.map fst (f :: found)
      = Spec.counting_from 1 (List.length (f :: found)).
Proof.
  exact (Sequence.report_clean_iff self f found).
Qed.

(** X10. A call of [validate_file] starts from an empty list of issues:
    the verdict and the issues it returns do not depend on the state in
    which an earlier call left the validator, and the returned list is
    the list of issues the validator holds after the call. *)
Theorem X10_result_independent_of_state (open_docx : string -> Opened)
    (self1 self2 : MemorandumValidator) (file_path : string) :
  fst (validate_file open_docx self1 file_path)
  = fst (validate_file open_docx self2 file_path)
  /\ issues (snd (validate_file open_docx self1 file_path))
     = snd (fst (validate_file open_docx self1 file_path)).
Proof.
  split; [|apply Failures.returned_is_state].
  destruct (Text.endswith file_path ".docx") eqn:E.
  - destruct (open_docx file_path) as [d| |str_e] eqn:O.
    + now rewrite !(Run.validate_file_loaded _ _ _ _ E O).
    + now rewrite !(Failures.validate_file_not_found _ _ _ E O).
    + now rewrite !(Failures.validate_file_read_error _ _ _ _ E O).
  - now rewrite !(Run.validate_file_wrong_extension _ _ _ E).
Qed.

(** X11. When the path ends in [.docx] and opening the document raises,
    the call returns the failed verdict with one CRITICAL issue of
    section "File", whose message names the path for a file that is not
    found and carries the text of the exception otherwise; no check
    runs, and [self.document] and [self.paragraphs] keep the values
    they had. *)
Theorem X11_document_does_not_open (open_docx : string -> Opened)
    (self : MemorandumValidator) (file_path : string) :
  (exists stem, file_path = stem ++ ".docx") ->
  (open_docx file_path = FileNotFoundError ->
   validate_file open_docx self file_path =
     ((false, [mkIssue CRITICAL "File" ("File not found: " ++ file_path) None]),
      {| issues := [mkIssue CRITICAL "File" ("File not found: " ++ file_path) None];
         document := document self; paragraphs := paragraphs self |}))
  /\ (forall str_e,
         open_docx file_path = OtherException str_e ->
         validate_file open_docx self file_path =
           ((false, [mkIssue CRITICAL "File" ("Error reading file: " ++ str_e) None]),
            {| issues := [mkIssue CRITICAL "File" ("Error reading file: " ++ str_e) None];
               document := document self; paragraphs := paragraphs self |})).
Proof.
  intros E. apply TextFacts.endswith_spec in E. split.
  - intros O. now apply Failures.validate_file_not_found.
  - intros str_e O. now apply Failures.validate_file_read_error.
Qed.

Lemma X11_document_does_not_open_witness :
  (exists stem, "lost.docx" = stem ++ ".docx")
  /\ validate_file (fun _ => FileNotFoundError)
       (loaded (mkDocument ["12 March 2025"] [])) "lost.docx" =
       ((false, [mkIssue CRITICAL "File" "File not found: lost.docx" None]),
        {| issues := [mkIssue CRITICAL "File" "File not found: lost.docx" None];
           document := Some (mkDocument ["12 March 2025"] []);
           paragraphs := ["12 March 2025"] |}).
Proof.
  assert (E : exists stem, "lost.docx" = stem ++ ".docx") by (exists "lost"; reflexivity).
  split; [exact E|].
  exact (proj1 (X11_document_does_not_open (fun _ => FileNotFoundError)
                  (loaded (mkDocument ["12 March 2025"] [])) "lost.docx" E) eq_refl).
Defined.


(** X13. The report of what [validate_file] returns is consistent: it
    shows the line of the failed verdict exactly when it has the block
    of CRITICAL issues. *)
Theorem X13_report_verdict_matches_blocks (open_docx : string -> Opened)
    (self : MemorandumValidator) (file_path : string) :
  let '(passed, found) := fst (validate_file open_docx self file_path) in
  In Spec.failed_line (report_lines passed found)
  <-> In "CRITICAL ISSUES:" (report_lines passed found).
Proof.
  pose proof (Failures.verdict_any open_docx self file_path) as V.
  destruct (fst (validate_file open_docx self file_path)) as [passed found].
  cbn [fst snd] in V.
  rewrite Report.failed_line_iff, Report.critical_title_iff, V.
  now destruct (existsb is_critical found).
Qed.





(** X16. The report hides no paragraph number.  [generate_report] leaves
    the paragraph out when the number of an issue is absent or zero;
    the issues that [validate_file] returns never carry the number zero,
    so that each one that has a paragraph number is rendered with it. *)
Theorem X16_report_shows_paragraph_numbers (open_docx : string -> Opened)
    (self : MemorandumValidator) (file_path : string) (i : ValidationIssue) (n : Z) :
  In i (snd (fst (validate_file open_docx self file_path))) ->
  paragraph_number i = Some n ->
  1 <= n
  /\ issue_line i
     = "  [" ++ section i ++ "] (Paragraph " ++ Text.str_of_int n ++ "): " ++ message i.
Proof.
  intros I P.
  assert (L : 1 <= n).
  { destruct (Failures.validate_file_cases open_docx self file_path)
      as [(j & _ & Pj & R)|(d & E & O)].
    - rewrite R in I. destruct I as [<-|[]]. congruence.
    - destruct (Pipeline.run_loaded open_docx self file_path d E O)
        as (lD & lM & lF & lS & lB & lG & lA & lX & R &
            SD & SM & SF & SS & SB & SG & SA & FX).
      rewrite R in I. cbn [fst snd] in I.
      assert (A : Forall (Spec.located (Z.of_nat (List.length (doc_paragraphs d))))
                    (lD ++ lM ++ lF ++ lS ++ lB ++ lG ++ lA ++ lX)).
      { repeat (apply Forall_app; split);
          try (eapply Pipeline.stage_located; eassumption).
        eapply Forall_impl; [|exact FX]. intros j (_ & _ & H).
        unfold Spec.located. now rewrite H. }
      rewrite Forall_forall in A. specialize (A i I).
      unfold Spec.located in A. rewrite P in A. lia. }
  split; [exact L|]. unfold issue_line, para_info. rewrite P.
  replace (n =? 0) with false by (symmetry; apply Z.eqb_neq; lia).
  now rewrite !TextFacts.append_assoc.
Qed.

Lemma X16_report_shows_paragraph_numbers_witness :
  let d := mkDocument ["32 March 2025"] [] in
  let i := mkIssue WARNING "Date"
             "Date format appears correct but may be invalid: 32 March 2025" (Some 1) in
  In i (snd (fst (validate_file (fun _ => Loaded d) init "m.docx")))
  /\ paragraph_number i = Some 1
  /\ issue_line i
     = "  [Date] (Paragraph 1): Date format appears correct but may be invalid: 32 March 2025".
Proof.
  intros d i.
  assert (I : In i (snd (fst (validate_file (fun _ => Loaded d) init "m.docx"))))
    by (vm_compute; now left).
  split; [exact I|]. split; [reflexivity|].
  exact (proj2 (X16_report_shows_paragraph_numbers (fun _ => Loaded d) init "m.docx"
                  i 1 I eq_refl)).
Defined.



(** X18. A call of [validate_file] never returns an empty list of
    issues: a path that is refused or a document that does not open
    gives the issue of section "File", and a run on a document that
    opens has at least the issue of the attachments check, which is
    never CRITICAL.  An empty list is thus no sign of a valid memorandum;
    the verdict is. *)
Theorem X18_issues_never_empty (open_docx : string -> Opened)
    (self : MemorandumValidator) (file_path : string) :
  exists i,
    In i (snd (fst (validate_file open_docx self file_path)))
    /\ ((section i = "File" /\ severity i = CRITICAL)
        \/ (section i = "Attachments" /\ severity i <> CRITICAL)).
Proof.
  destruct (Text.endswith file_path ".docx") eqn:E.
  - destruct (open_docx file_path) as [d| |str_e] eqn:O.
    + destruct (Run.formatting_stage open_docx self file_path d E O) as (l & -> & _).
      unfold text_checks.
      destruct (BodyCount.attachments_one
                  (_validate_signature_block
                     (_validate_body_paragraphs
                        (_validate_subject_line
                           (_validate_from_line
                              (_validate_memorandum_for (_validate_date (loaded d))))))))
        as (i & -> & S & C).
      exists i. split; [|now right].
      apply in_or_app. left. cbn [issues append_issue]. apply in_or_app. right. now left.
    + rewrite (Failures.validate_file_not_found _ _ _ E O).
      eexists. split; [now left | now left].
    + rewrite (Failures.validate_file_read_error _ _ _ _ E O).
      eexists. split; [now left | now left].
  - rewrite (Run.validate_file_wrong_extension _ _ _ E).
    eexists. split; [now left | now left].
Qed.

